(** * Catzilla request dispatcher and error resolver

    A shallow embedding of [Catzilla._handle_request],
    [Catzilla._handle_exception] and [Catzilla._get_clean_error_response]
    from [python/catzilla/app.py], together with the properties of the
    dispatcher that the specification states about them.

    Conventions of the embedding.
    - Python [str] is [string]; a [dict] whose iteration order matters
      ([_exception_handlers]) is an association list in insertion order;
      response headers, which are only looked up by key, are a [gmap].
    - User callbacks (route handlers, error handlers) either return a value
      or raise an [Exception]; they are functions into [Result].  Only
      subclasses of [Exception] are considered, which is what the
      [except Exception] clauses of the source catch.  A route handler
      may return anything.  In the first embedding the error handlers
      return a [Response], as their annotations
      [Callable[[Request, Exception], Response]] and
      [Callable[[Request], Response]] say; module [Dyn] embeds the
      resolver and the dispatcher a second time for error handlers that
      hand back any object, which Python allows, and
      [typed_run_is_dyn_run] shows that the two agree on handlers that
      keep to the annotations.
    - [Response.send] and [router.match] belong to files outside
      [app.py]; [send] is the write to the I/O boundary and does not
      raise, [match] is a total function of method and path.
    - Everything observable that the dispatcher does (calling a callback,
      printing a traceback, sending a response) is recorded, in order, in
      a trace of [Event]s carried by the writer monad [IO]. *)

From Stdlib Require Import ZArith String Ascii List.
From stdpp Require Import base option list strings gmap sorting.

Local Open Scope string_scope.
Local Open Scope list_scope.

(** ** Python built-ins used by the dispatcher *)

Module Py.

(** [c in s] for a one-character needle. *)
Fixpoint contains (c : ascii) (s : string) : bool :=
  match s with
  | EmptyString => false
  | String a s' => if Ascii.eqb a c then true else contains c s'
  end.

(** [s.split(c, 1)[0]]: everything before the first occurrence of [c],
    or all of [s] when [c] does not occur. *)
Fixpoint split1_head (c : ascii) (s : string) : string :=
  match s with
  | EmptyString => EmptyString
  | String a s' =>
      if Ascii.eqb a c then EmptyString else String a (split1_head c s')
  end.

(** [sep.join(l)]. *)
Definition join (sep : string) (l : list string) : string :=
  String.concat sep l.

(** [sorted(l)] on strings: ascending in the code-point order of [str]. *)
Definition sorted (l : list string) : list string :=
  merge_sort String.le l.

(** Truth value of an [Optional[str]]: [None] and [""] are falsy. *)
Definition truthy_str (o : option string) : bool :=
  match o with
  | Some s => negb (String.eqb s "")
  | None => false
  end.

(** [x in l] for a list of strings. *)
Definition in_list (x : string) (l : list string) : bool :=
  bool_decide (x ∈ l).

End Py.

(** ** Values exchanged with the framework types *)

(** JSON-serialisable data, as handed to [JSONResponse]. *)
#[local] Unset Elimination Schemes.
Inductive Json : Type :=
| JNull
| JBool (b : bool)
| JInt (z : Z)
| JStr (s : string)
| JList (l : list Json)
| JDict (d : list (string * Json)).
#[local] Set Elimination Schemes.

(** A response body: literal text, or the JSON serialisation of a
    dictionary (kept structured; the serialiser is outside the core). *)
Inductive Body : Type :=
| TextBody (s : string)
| JsonBody (data : list (string * Json)).

(** Modelled from the spec: the [Response] class of [types.py], which is
    not part of the sources at hand.  Section 3 gives its attributes:
    status code, content-type string, body, headers map. *)
Record Response : Type := mkResponse {
  status_code : Z;
  content_type : string;
  body : Body;
  headers : gmap string string
}.

(** Modelled from the spec: [JSONResponse(data, status_code=200)] of
    [types.py] (section 4.4: JSON Response, content-type
    [application/json]); no headers are passed by any caller here. *)
Definition JSONResponse (data : list (string * Json)) (status : Z) : Response :=
  {| status_code := status;
     content_type := "application/json";
     body := JsonBody data;
     headers := ∅ |}.

(** Modelled from the spec: [HTMLResponse(text)] of [types.py] (section
    4.4: HTML Response, status 200, content-type
    [text/html; charset=utf-8]). *)
Definition HTMLResponse (text : string) : Response :=
  {| status_code := 200;
     content_type := "text/html; charset=utf-8";
     body := TextBody text;
     headers := ∅ |}.

(** The opaque request capsule filled in by the native layer; the only
    thing the dispatcher reads through it is the content type. *)
Record Capsule : Type := mkCapsule {
  capsule_content_type : option string
}.

(** Modelled from the spec: the [Request] class of [types.py], with the
    constructor arguments used by [_handle_request] and the
    [path_params] attribute it assigns afterwards. *)
Record Request : Type := mkRequest {
  req_method : string;
  req_path : string;
  req_body : string;
  req_client : nat;
  request_capsule : Capsule;
  _query_params : gmap string string;
  path_params : gmap string string
}.

(** [request.path_params = path_params]. *)
Definition set_path_params (r : Request) (pp : gmap string string) : Request :=
  {| req_method := req_method r;
     req_path := req_path r;
     req_body := req_body r;
     req_client := req_client r;
     request_capsule := request_capsule r;
     _query_params := _query_params r;
     path_params := pp |}.

(** Modelled from the spec: the [content_type] property of [Request]. *)
Definition req_content_type (r : Request) : option string :=
  capsule_content_type (request_capsule r).

(** ** Exceptions *)

(** An exception instance: the method resolution order of its class, most
    specific first (e.g. [ValueError; Exception; BaseException; object]),
    and the text of [str(e)]. *)
Record Exception : Type := mkException {
  exc_mro : list string;
  exc_msg : string
}.

(** [isinstance(e, exc_type)]. *)
Definition isinstance (e : Exception) (exc_type : string) : bool :=
  bool_decide (exc_type ∈ exc_mro e).

(** [str(e)]. *)
Definition str (e : Exception) : string := exc_msg e.

Definition TypeError (msg : string) : Exception :=
  {| exc_mro := ["TypeError"; "Exception"; "BaseException"; "object"];
     exc_msg := msg |}.

(** The outcome of calling user code. *)
Inductive Result (A : Type) : Type :=
| Return (a : A)
| Raise (e : Exception).
Arguments Return {A} a.
Arguments Raise {A} e.

(** What a route handler may hand back to the dispatcher. *)
Inductive Returned : Type :=
| RetResponse (r : Response)
| RetDict (d : list (string * Json))
| RetStr (s : string)
| RetNone
| RetOther (type_repr : string).

(** [type(response)] as it prints inside the f-string of the
    [TypeError] message. *)
Definition type_repr_of (v : Returned) : string :=
  match v with
  | RetResponse _ => "<class 'catzilla.types.Response'>"
  | RetDict _ => "<class 'dict'>"
  | RetStr _ => "<class 'str'>"
  | RetNone => "<class 'NoneType'>"
  | RetOther t => t
  end.

(** The callbacks as annotated in the source; for error callbacks that
    return something else than a [Response], see [Dyn]. *)
Definition RouteHandler : Type := Request -> Result Returned.
Definition ExceptionHandler : Type := Request -> Exception -> Result Response.
Definition NotFoundHandler : Type := Request -> Result Response.

Record Route : Type := mkRoute {
  handler : RouteHandler
}.

(** The result triple of [router.match]. *)
Definition MatchResult : Type :=
  (option Route * gmap string string * option (list string))%type.

(** The native router, seen through its [match(method, path)] method. *)
Record Router : Type := mkRouter {
  match_ : string -> string -> MatchResult
}.

(** ** The application object *)

Record Catzilla : Type := mkCatzilla {
  production : bool;
  router : Router;
  _exception_handlers : list (string * ExceptionHandler);
  _not_found_handler : option NotFoundHandler;
  _internal_error_handler : option ExceptionHandler
}.

(** [d[k] = v] on an insertion-ordered dict: an existing key keeps its
    position, a new key goes last. *)
Fixpoint dict_set {V} (k : string) (v : V) (d : list (string * V))
  : list (string * V) :=
  match d with
  | [] => [(k, v)]
  | (k', v') :: d' =>
      if String.eqb k' k then (k, v) :: d' else (k', v') :: dict_set k v d'
  end.

Definition set_exception_handler (self : Catzilla) (exception_type : string)
    (h : ExceptionHandler) : Catzilla :=
  {| production := production self;
     router := router self;
     _exception_handlers := dict_set exception_type h (_exception_handlers self);
     _not_found_handler := _not_found_handler self;
     _internal_error_handler := _internal_error_handler self |}.

Definition set_not_found_handler (self : Catzilla) (h : NotFoundHandler)
  : Catzilla :=
  {| production := production self;
     router := router self;
     _exception_handlers := _exception_handlers self;
     _not_found_handler := Some h;
     _internal_error_handler := _internal_error_handler self |}.

Definition set_internal_error_handler (self : Catzilla) (h : ExceptionHandler)
  : Catzilla :=
  {| production := production self;
     router := router self;
     _exception_handlers := _exception_handlers self;
     _not_found_handler := _not_found_handler self;
     _internal_error_handler := Some h |}.

(** ** Observable effects *)

Inductive Event : Type :=
| CallHandler (request : Request)
| CallExceptionHandler (exc_type : string) (request : Request) (e : Exception)
| CallInternalErrorHandler (request : Request) (e : Exception)
| CallNotFoundHandler (request : Request)
| PrintTraceback
| Send (client : nat) (r : Response).

(** Writer monad over the event trace. *)
Definition IO (A : Type) : Type := (A * list Event)%type.

Definition io_ret {A} (a : A) : IO A := (a, []).

Definition io_bind {A B} (m : IO A) (f : A -> IO B) : IO B :=
  let '(a, t1) := m in
  let '(b, t2) := f a in
  (b, t1 ++ t2).

Definition emit (ev : Event) : IO unit := (tt, [ev]).

Definition trace {A} (m : IO A) : list Event := snd m.
Definition value {A} (m : IO A) : A := fst m.

Notation "x <- m ;; k" := (io_bind m (fun x => k))
  (at level 100, m at next level, right associativity).
Notation "m ;;; k" := (io_bind m (fun _ => k))
  (at level 100, right associativity).

(** Modelled from the spec: [Response.send(client)] of [types.py], the
    write to the I/O boundary (section 6). *)
Definition send (r : Response) (client : nat) : IO unit := emit (Send client r).

(** ** Error resolver *)

Definition ALLOWED_CONTENT_TYPES : list string :=
  ["application/json";
   "application/x-www-form-urlencoded";
   "text/plain";
   "multipart/form-data"].

(** [_get_clean_error_response(status_code, message, detail=None)]. *)
Definition _get_clean_error_response (self : Catzilla) (status : Z)
    (message : string) (detail : option string) : Response :=
  let error_data := [("error", JStr message)] in
  let error_data :=
    match detail with
    | Some d =>
        if Py.truthy_str detail && negb (production self)
        then error_data ++ [("detail", JStr d)]
        else error_data
    | None => error_data
    end in
  JSONResponse error_data status.

(** The response built in the [except] clause around a registered
    exception handler. *)
Definition handler_failed_response (self : Catzilla) (handler_error : Exception)
  : Response :=
  if production self then
    _get_clean_error_response self 500 "Internal server error" None
  else
    {| status_code := 500;
       content_type := "text/plain";
       body := TextBody ("Exception handler failed: " +:+ str handler_error);
       headers := {[ "X-Error-Detail" := str handler_error ]} |}.

(** The [for exc_type, handler in self._exception_handlers.items()] loop
    of [_handle_exception].  [Some r] is a [return r] from inside the
    loop; [None] means the loop ran to its end. *)
Fixpoint exception_handlers_loop (self : Catzilla) (request : Request)
    (exception : Exception) (items : list (string * ExceptionHandler))
  : IO (option Response) :=
  match items with
  | [] => io_ret None
  | (exc_type, h) :: items' =>
      if isinstance exception exc_type then
        emit (CallExceptionHandler exc_type request exception) ;;;
        match h request exception with
        | Return r => io_ret (Some r)
        | Raise handler_error =>
            io_ret (Some (handler_failed_response self handler_error))
        end
      else exception_handlers_loop self request exception items'
  end.

(** [_handle_exception(request, exception)]. *)
Definition _handle_exception (self : Catzilla) (request : Request)
    (exception : Exception) : IO Response :=
  found <- exception_handlers_loop self request exception
             (_exception_handlers self) ;;
  match found with
  | Some r => io_ret r
  | None =>
      match _internal_error_handler self with
      | Some h =>
          emit (CallInternalErrorHandler request exception) ;;;
          match h request exception with
          | Return r => io_ret r
          | Raise handler_error =>
              if production self then
                io_ret (_get_clean_error_response self 500
                          "Internal server error" None)
              else
                io_ret
                  {| status_code := 500;
                     content_type := "text/plain";
                     body := TextBody ("Internal error handler failed: "
                                       +:+ str handler_error);
                     headers := {[ "X-Error-Detail" := str handler_error ]} |}
          end
      | None =>
          if production self then
            io_ret (_get_clean_error_response self 500
                      "Internal server error" None)
          else
            emit PrintTraceback ;;;
            io_ret
              {| status_code := 500;
                 content_type := "text/plain";
                 body := TextBody ("Internal Server Error: " +:+ str exception);
                 headers := {[ "X-Error-Detail" := str exception ]} |}
      end
  end.

(** ** Dispatcher *)

(** [path.split("?", 1)[0] if "?" in path else path]. *)
Definition base_path_of (path : string) : string :=
  if Py.contains "?" path then Py.split1_head "?" path else path.

(** The [Request(...)] object built at the top of [_handle_request]. *)
Definition new_request (client : nat) (method path body : string)
    (capsule : Capsule) : Request :=
  {| req_method := method;
     req_path := path;
     req_body := body;
     req_client := client;
     request_capsule := capsule;
     _query_params := ∅;
     path_params := ∅ |}.

(** The 415 response of the content-type gate. *)
Definition unsupported_media_type (ct : string) : Response :=
  {| status_code := 415;
     content_type := "text/plain";
     body := TextBody ("Unsupported Media Type: " +:+ ct);
     headers := {[ "X-Error-Detail" :=
                     "Content-Type " +:+ ct +:+ " is not supported" ]} |}.

(** The [isinstance] cascade that normalises a handler's return value. *)
Definition normalize (response : Returned) : Result Response :=
  match response with
  | RetResponse r => Return r
  | RetDict d => Return (JSONResponse d 200)
  | RetStr s => Return (HTMLResponse s)
  | other =>
      Raise (TypeError ("Handler returned unsupported type "
                        +:+ type_repr_of other
                        +:+ ". Must return Response, dict, or str."))
  end.

(** The part of the [try] block after the content-type gate: call the
    route handler, normalise what it returned, send it. *)
Definition call_route_handler (route : Route) (request : Request)
    (client : nat) : IO (Result unit) :=
  emit (CallHandler request) ;;;
  match handler route request with
  | Raise e => io_ret (Raise e)
  | Return response =>
      match normalize response with
      | Raise e => io_ret (Raise e)
      | Return response => send response client ;;; io_ret (Return tt)
      end
  end.

(** [content_type and content_type not in [...]]. *)
Definition gate_rejects (content_type : option string) : bool :=
  match content_type with
  | Some ct =>
      Py.truthy_str content_type && negb (Py.in_list ct ALLOWED_CONTENT_TYPES)
  | None => false
  end.

(** The body of the [try] block of the matched branch.  [Return tt] means
    the block completed (or left through [return]); [Raise e] means [e]
    reaches the [except Exception] clause. *)
Definition matched_try_block (route : Route) (request : Request)
    (client : nat) : IO (Result unit) :=
  let content_type := req_content_type request in
  match content_type with
  | Some ct =>
      if gate_rejects content_type
      then send (unsupported_media_type ct) client ;;; io_ret (Return tt)
      else call_route_handler route request client
  | None => call_route_handler route request client
  end.

(** The response of the method-not-allowed branch. *)
Definition method_not_allowed (self : Catzilla) (method path : string)
    (allowed_methods : list string) : Response :=
  if production self then
    _get_clean_error_response self 405 "Method not allowed"
      (Some ("Allowed methods: " +:+ Py.join ", " (Py.sorted allowed_methods)))
  else
    {| status_code := 405;
       content_type := "text/plain";
       body := TextBody ("Method Not Allowed: " +:+ method +:+ " " +:+ path);
       headers := {[ "Allow" := Py.join ", " (Py.sorted allowed_methods);
                     "X-Error-Path" := path ]} |}.

(** The response sent when the registered 404 handler raised. *)
Definition not_found_fallback (self : Catzilla) (handler_error : Exception)
  : Response :=
  if production self then
    _get_clean_error_response self 404 "Not found" None
  else
    {| status_code := 500;
       content_type := "text/plain";
       body := TextBody ("404 handler failed: " +:+ str handler_error);
       headers := {[ "X-Error-Detail" := str handler_error ]} |}.

(** The default 404 response. *)
Definition default_not_found (self : Catzilla) (method path : string)
  : Response :=
  if production self then
    _get_clean_error_response self 404 "Not found" None
  else
    {| status_code := 404;
       content_type := "text/plain";
       body := TextBody ("Not Found: " +:+ method +:+ " " +:+ path);
       headers := {[ "X-Error-Path" := path ]} |}.

(** The [else] branch of [if route:] once [allowed_methods] is falsy. *)
Definition not_found_branch (self : Catzilla) (request : Request)
    (client : nat) (method path : string) : IO unit :=
  match _not_found_handler self with
  | Some h =>
      emit (CallNotFoundHandler request) ;;;
      match h request with
      | Return not_found_resp => send not_found_resp client
      | Raise handler_error =>
          send (not_found_fallback self handler_error) client
      end
  | None => send (default_not_found self method path) client
  end.

(** [_handle_request(client, method, path, body, request_capsule)]. *)
Definition _handle_request (self : Catzilla) (client : nat)
    (method path body : string) (capsule : Capsule) : IO unit :=
  let base_path := base_path_of path in
  let request := new_request client method path body capsule in
  let '(route, path_params, allowed_methods) :=
    match_ (router self) method base_path in
  let request := set_path_params request path_params in
  match route with
  | Some route =>
      r <- matched_try_block route request client ;;
      match r with
      | Return _ => io_ret tt
      | Raise e =>
          err_resp <- _handle_exception self request e ;;
          send err_resp client
      end
  | None =>
      (* [if allowed_methods:] holds for a non-empty collection only *)
      match allowed_methods with
      | Some (m :: ms) =>
          send (method_not_allowed self method path (m :: ms)) client
      | _ => not_found_branch self request client method path
      end
  end.

(** The responses written to the I/O boundary, in order, each with the
    client handle it was written to. *)
Definition sent (t : list Event) : list (nat * Response) :=
  omap (fun ev => match ev with Send c r => Some (c, r) | _ => None end) t.

(** The status codes of the responses written, in order. *)
Definition sent_statuses (t : list Event) : list Z :=
  map (fun cr => status_code cr.2) (sent t).

(** The request object a callback was called with. *)
Definition event_request (ev : Event) : option Request :=
  match ev with
  | CallHandler r
  | CallExceptionHandler _ r _
  | CallInternalErrorHandler r _
  | CallNotFoundHandler r => Some r
  | PrintTraceback | Send _ _ => None
  end.

Definition is_call_handler (ev : Event) : bool :=
  match ev with CallHandler _ => true | _ => false end.

Definition is_call_internal (ev : Event) : bool :=
  match ev with CallInternalErrorHandler _ _ => true | _ => false end.

(** How often the route handler was called. *)
Definition handler_calls (t : list Event) : nat :=
  length (List.filter is_call_handler t).

(** How often the internal-error handler was called. *)
Definition internal_handler_calls (t : list Event) : nat :=
  length (List.filter is_call_internal t).

(** The exception types whose registered handler was called. *)
Definition called_exc_types (t : list Event) : list string :=
  omap (fun ev =>
          match ev with CallExceptionHandler k _ _ => Some k | _ => None end) t.

(** The dispatcher's lookup: [router.match] on the path without its query
    string. *)
Definition resolve (self : Catzilla) (method path : string) : MatchResult :=
  match_ (router self) method (base_path_of path).

(** ** The lookup rule in the words of the specification *)

(** Section 3 and 4.5: exact match first, then walk up the kind hierarchy;
    the first kind of the raised exception's chain that has a registered
    handler is the one that handles it. *)
Fixpoint spec_most_specific_kind (registered : list string)
    (chain : list string) : option string :=
  match chain with
  | [] => None
  | k :: ancestors =>
      if bool_decide (k ∈ registered) then Some k
      else spec_most_specific_kind registered ancestors
  end.

(** The claim of section 4.5 about one run of the resolver: the handler
    that is called is the one registered for the most specific kind. *)
Definition selects_most_specific (self : Catzilla) (request : Request)
    (e : Exception) : Prop :=
  called_exc_types (trace (_handle_exception self request e)) =
  option_list (spec_most_specific_kind (_exception_handlers self).*1 (exc_mro e)).

(** The claim of section 4.5, fallback 1, about one run of the resolver:
    the internal-error handler is tried exactly once. *)
Definition retries_once_via_internal_handler (self : Catzilla)
    (request : Request) (e : Exception) : Prop :=
  internal_handler_calls (trace (_handle_exception self request e)) = 1%nat.

(** ** Sample applications *)

Definition ValueError (msg : string) : Exception :=
  {| exc_mro := ["ValueError"; "Exception"; "BaseException"; "object"];
     exc_msg := msg |}.

Definition RuntimeError (msg : string) : Exception :=
  {| exc_mro := ["RuntimeError"; "Exception"; "BaseException"; "object"];
     exc_msg := msg |}.

Definition plain (status : Z) (text : string) : Response :=
  {| status_code := status;
     content_type := "text/plain";
     body := TextBody text;
     headers := ∅ |}.

(** A router with [GET /v], [GET /none] and [GET /hello]; [/v] also has
    routes for POST and DELETE that a PUT is told about. *)
Definition raising_route : Route :=
  {| handler := fun _ => Raise (ValueError "bad") |}.
Definition none_route : Route := {| handler := fun _ => Return RetNone |}.
Definition hello_route : Route := {| handler := fun _ => Return (RetStr "hi") |}.

Definition demo_router : Router :=
  {| match_ := fun method path =>
       if String.eqb method "GET" then
         if String.eqb path "/v" then (Some raising_route, ∅, None)
         else if String.eqb path "/none" then (Some none_route, ∅, None)
         else if String.eqb path "/hello" then (Some hello_route, ∅, None)
         else (None, ∅, None)
       else if String.eqb path "/v"
            then (None, ∅, Some ["POST"; "GET"; "DELETE"])
            else (None, ∅, None) |}.

Definition base_app (prod : bool) : Catzilla :=
  {| production := prod;
     router := demo_router;
     _exception_handlers := [];
     _not_found_handler := None;
     _internal_error_handler := None |}.

Definition generic_handler : ExceptionHandler :=
  fun _ _ => Return (plain 500 "generic").
Definition value_handler : ExceptionHandler :=
  fun _ _ => Return (plain 400 "value").
Definition failing_handler : ExceptionHandler :=
  fun _ _ => Raise (RuntimeError "handler broke").
Definition internal_handler : ExceptionHandler :=
  fun _ _ => Return (plain 503 "internal").
Definition failing_not_found : NotFoundHandler :=
  fun _ => Raise (RuntimeError "nf broke").

(** [Exception] registered before [ValueError]. *)
Definition app_generic_first : Catzilla :=
  set_exception_handler
    (set_exception_handler (base_app false) "Exception" generic_handler)
    "ValueError" value_handler.

(** The same two registrations in the other order. *)
Definition app_specific_first : Catzilla :=
  set_exception_handler
    (set_exception_handler (base_app false) "ValueError" value_handler)
    "Exception" generic_handler.

(** A [ValueError] handler that raises, next to an internal-error
    handler. *)
Definition app_failing_handler (prod : bool) : Catzilla :=
  set_internal_error_handler
    (set_exception_handler (base_app prod) "ValueError" failing_handler)
    internal_handler.

(** A 404 handler that raises. *)
Definition app_failing_not_found (prod : bool) : Catzilla :=
  set_not_found_handler (base_app prod) failing_not_found.

Definition demo_request : Request :=
  set_path_params (new_request 7 "GET" "/v" "" (mkCapsule None)) ∅.

(** What a registered handler contributes once the loop has chosen it. *)
Definition outcome_of (self : Catzilla) (request : Request) (e : Exception)
    (h : ExceptionHandler) : Response :=
  match h request e with
  | Return r => r
  | Raise handler_error => handler_failed_response self handler_error
  end.

(** The request object as the callbacks of one dispatch see it: the
    [Request] built from the raw arguments, with the matcher's path
    parameters assigned. *)
Definition dispatched_request (client : nat) (method path body : string)
    (capsule : Capsule) (pp : gmap string string) : Request :=
  set_path_params (new_request client method path body capsule) pp.

(** Every callback recorded in [t] was called with [request]. *)
Definition callbacks_see (request : Request) (t : list Event) : Prop :=
  Forall (fun ev => forall r, event_request ev = Some r -> r = request) t.

(** ** Further observations on traces and registries *)

(** Events that only the error resolver produces. *)
Definition is_resolver_event (ev : Event) : bool :=
  match ev with
  | CallExceptionHandler _ _ _ | CallInternalErrorHandler _ _
  | PrintTraceback => true
  | _ => false
  end.

(** How many error handlers, per-type or internal, were called. *)
Definition error_handler_calls (t : list Event) : nat :=
  (length (called_exc_types t) + internal_handler_calls t)%nat.

(** The body-less JSON error that production mode answers a failed
    request with. *)
Definition terse_500 : Response :=
  JSONResponse [("error", JStr "Internal server error")] 500.

(** [d.get(k)] on an insertion-ordered dict. *)
Fixpoint dict_get {V} (k : string) (d : list (string * V)) : option V :=
  match d with
  | [] => None
  | (k', v) :: d' => if String.eqb k' k then Some v else dict_get k d'
  end.

(** A run of [set_exception_handler] calls, first to last. *)
Definition register_all (self : Catzilla)
    (regs : list (string * ExceptionHandler)) : Catzilla :=
  foldl (fun app kh => set_exception_handler app kh.1 kh.2) self regs.

(** A 404 handler that raises, in an application that also has a handler
    for every [Exception] and an internal-error handler. *)
Definition app_guarded_not_found : Catzilla :=
  set_internal_error_handler
    (set_exception_handler (app_failing_not_found false) "Exception"
       generic_handler)
    internal_handler.

(** The debug-mode response of the resolver when nothing is registered
    for the exception. *)
Definition debug_internal_server_error (e : Exception) : Response :=
  {| status_code := 500;
     content_type := "text/plain";
     body := TextBody ("Internal Server Error: " +:+ str e);
     headers := {[ "X-Error-Detail" := str e ]} |}.

(** The response of the resolver when the internal-error handler raised. *)
Definition internal_handler_failed_response (self : Catzilla)
    (handler_error : Exception) : Response :=
  if production self then terse_500
  else
    {| status_code := 500;
       content_type := "text/plain";
       body := TextBody ("Internal error handler failed: "
                         +:+ str handler_error);
       headers := {[ "X-Error-Detail" := str handler_error ]} |}.

(** Only an internal-error handler, which raises. *)
Definition app_failing_internal (prod : bool) : Catzilla :=
  set_internal_error_handler
    (set_exception_handler (base_app prod) "KeyError" value_handler)
    failing_handler.

(** ** Memory configuration and profiling

    The memory-related attributes of the application object and the
    methods [_init_memory_revolution], the body of the profiling loop of
    [_start_memory_profiling], and [get_memory_profile].  Statistics
    dictionaries and time stamps are floating-point data produced by the
    native layer; they are kept as opaque types [Stats] and [T], and the
    three operations the code performs on them are passed as functions.
    The text of console messages is not modelled, only which message is
    printed. *)

(** [l[-n:]] for a positive [n]: the last [n] elements, or all of [l]. *)
Definition slice_last {A} (n : nat) (l : list A) : list A :=
  drop (length l - n) l.

Record Memory (Stats T : Type) : Type := mkMemory {
  use_jemalloc : bool;
  memory_profiling : bool;
  auto_memory_tuning : bool;
  memory_stats_interval : Z;
  has_jemalloc : option bool;
  _memory_stats_history : list Stats;
  _last_memory_check : T;
  _memory_optimization_active : bool
}.
Arguments mkMemory {Stats T}.
Arguments use_jemalloc {Stats T}.
Arguments memory_profiling {Stats T}.
Arguments auto_memory_tuning {Stats T}.
Arguments memory_stats_interval {Stats T}.
Arguments has_jemalloc {Stats T}.
Arguments _memory_stats_history {Stats T}.
Arguments _last_memory_check {Stats T}.
Arguments _memory_optimization_active {Stats T}.

(** The memory attributes as [__init__] leaves them before it calls
    [_init_memory_revolution]; [zero] is the float [0.0]. *)
Definition init_memory {Stats T} (use_jemalloc memory_profiling
    auto_memory_tuning : bool) (memory_stats_interval : Z) (zero : T)
  : Memory Stats T :=
  {| use_jemalloc := use_jemalloc;
     memory_profiling := memory_profiling;
     auto_memory_tuning := auto_memory_tuning;
     memory_stats_interval := memory_stats_interval;
     has_jemalloc := None;
     _memory_stats_history := [];
     _last_memory_check := zero;
     _memory_optimization_active := false |}.

(** [self.has_jemalloc = h; self.use_jemalloc = u;
    self._memory_optimization_active = a]. *)
Definition set_jemalloc_flags {Stats T} (self : Memory Stats T)
    (h u a : bool) : Memory Stats T :=
  {| use_jemalloc := u;
     memory_profiling := memory_profiling self;
     auto_memory_tuning := auto_memory_tuning self;
     memory_stats_interval := memory_stats_interval self;
     has_jemalloc := Some h;
     _memory_stats_history := _memory_stats_history self;
     _last_memory_check := _last_memory_check self;
     _memory_optimization_active := a |}.

(** What the native extension and the thread library answer during
    initialisation. *)
Record Native : Type := mkNative {
  native_has_jemalloc : Result bool;
  native_init_memory_system : Result unit;
  native_thread_start : Result unit
}.

Inductive Message : Type :=
| MsgFullActivated
| MsgActivated
| MsgNotAvailable
| MsgDisabled
| MsgInitWarning (e : Exception).

Inductive MemEvent : Type :=
| Print (m : Message)
| StartProfilingThread.

(** The [except Exception as e] clause of [_init_memory_revolution]. *)
Definition init_warning {Stats T} (self : Memory Stats T) (e : Exception)
    (before : list MemEvent) : Memory Stats T * list MemEvent :=
  (set_jemalloc_flags self false false (_memory_optimization_active self),
   before ++ [Print (MsgInitWarning e)]).

(** [_init_memory_revolution()]. *)
Definition _init_memory_revolution {Stats T} (self : Memory Stats T)
    (native : Native) : Memory Stats T * list MemEvent :=
  match native_has_jemalloc native with
  | Raise e => init_warning self e []
  | Return jemalloc_available =>
      if use_jemalloc self && jemalloc_available then
        match native_init_memory_system native with
        | Raise e => init_warning self e []
        | Return _ =>
            let self := set_jemalloc_flags self true (use_jemalloc self) true in
            if memory_profiling self then
              match native_thread_start native with
              | Return _ =>
                  (self, [Print MsgFullActivated; StartProfilingThread])
              | Raise e => init_warning self e [Print MsgFullActivated]
              end
            else (self, [Print MsgActivated])
        end
      else if use_jemalloc self && negb jemalloc_available then
        (set_jemalloc_flags self false false (_memory_optimization_active self),
         [Print MsgNotAvailable])
      else
        (set_jemalloc_flags self false (use_jemalloc self)
           (_memory_optimization_active self),
         [Print MsgDisabled])
  end.

(** [self._memory_stats_history.append(stats)] followed by the trimming
    [if len(history) > 100: history = history[-50:]]. *)
Definition record_stats {Stats} (history : list Stats) (stats : Stats)
  : list Stats :=
  let history := history ++ [stats] in
  if (100 <? length history)%nat then slice_last 50 history else history.

(** One pass through the [try] block of [profile_memory], given the
    current time and what [get_memory_stats()] returns at that moment.
    [elapsed_at_least now last interval] is the float comparison
    [now - last >= interval], [jemalloc_enabled] is
    [stats.get("jemalloc_enabled")], and [set_timestamp] is
    [stats["timestamp"] = current_time].  [get_memory_stats] and
    [_auto_tune_memory] catch their own exceptions and the latter only
    prints, so the [except] clause of the loop is not reached and
    auto-tuning leaves the state alone. *)
Definition profile_step {Stats T}
    (elapsed_at_least : T -> T -> Z -> bool)
    (jemalloc_enabled : Stats -> bool)
    (set_timestamp : T -> Stats -> Stats)
    (self : Memory Stats T) (current_time : T) (stats : Stats)
  : Memory Stats T :=
  if elapsed_at_least current_time (_last_memory_check self)
       (memory_stats_interval self)
  then
    {| use_jemalloc := use_jemalloc self;
       memory_profiling := memory_profiling self;
       auto_memory_tuning := auto_memory_tuning self;
       memory_stats_interval := memory_stats_interval self;
       has_jemalloc := has_jemalloc self;
       _memory_stats_history :=
         if jemalloc_enabled stats
         then record_stats (_memory_stats_history self)
                (set_timestamp current_time stats)
         else _memory_stats_history self;
       _last_memory_check := current_time;
       _memory_optimization_active := _memory_optimization_active self |}
  else self.

(** Any number of passes, each with its own clock reading and
    statistics. *)
Definition profile_run {Stats T}
    (elapsed_at_least : T -> T -> Z -> bool)
    (jemalloc_enabled : Stats -> bool)
    (set_timestamp : T -> Stats -> Stats)
    (self : Memory Stats T) (inputs : list (T * Stats)) : Memory Stats T :=
  foldl (fun m i =>
           profile_step elapsed_at_least jemalloc_enabled set_timestamp
             m i.1 i.2)
    self inputs.

(** The dictionary returned by [get_memory_profile()]. *)
Inductive MemoryProfile (Stats : Type) : Type :=
| ProfileError (error : string)
| Profile (profiling_enabled : bool) (stats_history : list Stats)
    (auto_tuning_enabled : bool) (check_interval_seconds : Z)
    (total_checks : nat).
Arguments ProfileError {Stats} error.
Arguments Profile {Stats}.

(** [get_memory_profile()]. *)
Definition get_memory_profile {Stats T} (self : Memory Stats T)
  : MemoryProfile Stats :=
  if negb (memory_profiling self) then
    ProfileError "Memory profiling not enabled"
  else
    Profile true (slice_last 10 (_memory_stats_history self))
      (auto_memory_tuning self) (memory_stats_interval self)
      (length (_memory_stats_history self)).

(** ** The per-route middleware of [examples/middleware/basic_middleware.py]

    [auth_middleware], [rate_limit_middleware] and [admin_middleware].
    A middleware reads the request, may attach values to
    [request.context], and returns [None] to continue or a [Response] to
    stop.  The model returns that value together with the request as the
    middleware leaves it.  Console output is not modelled.  Time stamps
    are values of an opaque type [T]. *)

(** A value stored in [request.context]. *)
#[local] Unset Elimination Schemes.
Inductive CtxVal (T : Type) : Type :=
| CStr (s : string)
| CInt (z : Z)
| CBool (b : bool)
| CTime (t : T)
| CDict (d : list (string * CtxVal T)).
#[local] Set Elimination Schemes.
Arguments CStr {T} s.
Arguments CInt {T} z.
Arguments CBool {T} b.
Arguments CTime {T} t.
Arguments CDict {T} d.

(** Modelled from the spec: the parts of the [Request] class of
    [types.py] that the middleware uses: [request.headers.get(name)],
    [request.get_header(name)], and the dynamically attached
    [request.context] ([None] while the attribute does not exist). *)
Record MwRequest (T : Type) : Type := mkMwRequest {
  headers_get : string -> option string;
  get_header : string -> option string;
  context : option (gmap string (CtxVal T))
}.
Arguments mkMwRequest {T}.
Arguments headers_get {T}.
Arguments get_header {T}.
Arguments context {T}.

(** [a or b] on optional strings. *)
Definition py_or (a b : option string) : option string :=
  if Py.truthy_str a then a else b.

(** [s.startswith(p)]. *)
Fixpoint startswith (p s : string) : bool :=
  match p, s with
  | EmptyString, _ => true
  | String a p', String b s' => Ascii.eqb a b && startswith p' s'
  | String _ _, EmptyString => false
  end.

(** [s[n:]]. *)
Fixpoint str_drop (n : nat) (s : string) : string :=
  match n, s with
  | O, _ => s
  | S n', String _ s' => str_drop n' s'
  | S _, EmptyString => EmptyString
  end.

(** [if not hasattr(request, 'context'): request.context = {}] followed by
    [request.context[key] = v]. *)
Definition context_set {T} (request : MwRequest T) (key : string)
    (v : CtxVal T) : MwRequest T :=
  {| headers_get := headers_get request;
     get_header := get_header request;
     context := Some (<[key := v]> (default ∅ (context request))) |}.

(** [getattr(request, 'context', {}).get(key)]. *)
Definition context_get {T} (request : MwRequest T) (key : string)
  : option (CtxVal T) :=
  default ∅ (context request) !! key.

(** The header value that [auth_middleware] settles on. *)
Definition auth_header_of {T} (request : MwRequest T) : option string :=
  py_or (headers_get request "Authorization")
    (py_or (headers_get request "authorization")
       (py_or (headers_get request "AUTHORIZATION")
          (py_or (get_header request "Authorization")
             (get_header request "authorization")))).

(** [auth_middleware(request)]; [now] is what [time.time()] returns. *)
Definition auth_middleware {T} (now : T) (request : MwRequest T)
  : option Response * MwRequest T :=
  let auth_header := auth_header_of request in
  match auth_header with
  | Some header =>
      if negb (Py.truthy_str auth_header) then
        (Some (JSONResponse
                 [("error", JStr "Authentication required");
                  ("message", JStr "Please provide Authorization header");
                  ("example", JStr "Authorization: Bearer your-token")]
                 401), request)
      else if negb (startswith "Bearer " header) then
        (Some (JSONResponse
                 [("error", JStr "Invalid authorization format");
                  ("message",
                   JStr "Authorization header must start with 'Bearer '")]
                 401), request)
      else
        let token := str_drop 7 header in
        if String.eqb token "invalid" then
          (Some (JSONResponse
                   [("error", JStr "Invalid token");
                    ("message", JStr "The provided token is invalid")]
                   401), request)
        else
          (None,
           context_set request "user"
             (CDict [("id", CStr "user123");
                     ("name", CStr "John Doe");
                     ("token", CStr token);
                     ("authenticated_at", CTime now)]))
  | None =>
      (Some (JSONResponse
               [("error", JStr "Authentication required");
                ("message", JStr "Please provide Authorization header");
                ("example", JStr "Authorization: Bearer your-token")]
               401), request)
  end.

(** [rate_limit_middleware(request)]; [reset_time] is what
    [time.time() + 3600] evaluates to. *)
Definition rate_limit_middleware {T} (reset_time : T) (request : MwRequest T)
  : option Response * MwRequest T :=
  let client_ip := default "127.0.0.1" (headers_get request "x-forwarded-for") in
  (None,
   context_set request "rate_limit"
     (CDict [("ip", CStr client_ip);
             ("remaining", CInt 100);
             ("reset_time", CTime reset_time)])).

(** Truth value of a context value; [time_truthy] tells whether a float
    is non-zero. *)
Definition ctx_truthy {T} (time_truthy : T -> bool) (v : CtxVal T) : bool :=
  match v with
  | CStr s => negb (String.eqb s "")
  | CInt z => negb (Z.eqb z 0)
  | CBool b => b
  | CTime t => time_truthy t
  | CDict [] => false
  | CDict (_ :: _) => true
  end.

(** The name of a value's type, as it appears in an [AttributeError]. *)
Definition ctx_type_name {T} (v : CtxVal T) : string :=
  match v with
  | CStr _ => "str"
  | CInt _ => "int"
  | CBool _ => "bool"
  | CTime _ => "float"
  | CDict _ => "dict"
  end.

Definition AttributeError (msg : string) : Exception :=
  {| exc_mro := ["AttributeError"; "Exception"; "BaseException"; "object"];
     exc_msg := msg |}.

(** [v != s] for a value that [dict.get] returned and a string. *)
Definition differs_from_str {T} (v : option (CtxVal T)) (s : string) : bool :=
  match v with
  | Some (CStr s') => negb (String.eqb s' s)
  | _ => true
  end.

(** [admin_middleware(request)].  The request is not changed. *)
Definition admin_middleware {T} (time_truthy : T -> bool)
    (request : MwRequest T) : Result (option Response) :=
  match context_get request "user" with
  | None =>
      Return (Some (JSONResponse
                      [("error", JStr "Authentication required");
                       ("message",
                        JStr "Admin access requires authentication")]
                      401))
  | Some user =>
      if negb (ctx_truthy time_truthy user) then
        Return (Some (JSONResponse
                        [("error", JStr "Authentication required");
                         ("message",
                          JStr "Admin access requires authentication")]
                        401))
      else
        match user with
        | CDict d =>
            if differs_from_str (dict_get "token" d) "admin-token" then
              Return (Some (JSONResponse
                              [("error", JStr "Admin access required");
                               ("message",
                                JStr "This endpoint requires admin privileges")]
                              403))
            else Return None
        | other =>
            Raise (AttributeError ("'" +:+ ctx_type_name other
                                   +:+ "' object has no attribute 'get'"))
        end
  end.

(** The request of [curl -H 'Authorization: Bearer admin-token'] against
    a header map that is looked up by exact name. *)
Definition admin_request : MwRequest Z :=
  {| headers_get := fun name =>
       if String.eqb name "Authorization" then Some "Bearer admin-token"
       else None;
     get_header := fun _ => None;
     context := None |}.

(** A clock in whole seconds and statistics reduced to their
    [jemalloc_enabled] entry, for running the profiling loop on concrete
    inputs. *)
Definition elapsed_seconds (now last : Z) (interval : Z) : bool :=
  (interval <=? now - last)%Z.

Definition sample_memory : Memory bool Z :=
  init_memory true true true 60 0%Z.

Definition native_ok : Native :=
  {| native_has_jemalloc := Return true;
     native_init_memory_system := Return tt;
     native_thread_start := Return tt |}.

(** A route whose handler returns bytes. *)
Definition bytes_route : Route :=
  {| handler := fun _ => Return (RetOther "<class 'bytes'>") |}.

Definition bytes_router : Router :=
  {| match_ := fun _ _ => (Some bytes_route, ∅, None) |}.

(** Every [TypeError] is answered by [value_handler]. *)
Definition app_type_error_handler : Catzilla :=
  {| production := true;
     router := bytes_router;
     _exception_handlers := [("TypeError", value_handler)];
     _not_found_handler := None;
     _internal_error_handler := None |}.

(** ** The dispatcher with callbacks that return anything

    Python does not enforce the annotations of the error callbacks: the
    resolver returns whatever the callback it called returned, and
    [_handle_request] calls [.send(client)] on it.  Module [Dyn] embeds
    [_handle_exception] and [_handle_request] once more with callbacks
    that hand back any object.  [lift] turns an application whose
    callbacks keep to their annotations into one of [Dyn]; on lifted
    applications both embeddings produce the same trace. *)

(** What an error callback handed back: a [Response] (or an instance of
    a subclass), or an object of another type, given by the name of its
    type; such an object (None, a dict, a str, a number, ...) has no
    [send] attribute. *)
Inductive Handed : Type :=
| HandedResponse (r : Response)
| HandedOther (type_name : string).

(** An application object without callbacks; the builders of the
    default responses read nothing but its production flag. *)
Definition flags_only (prod : bool) (r : Router) : Catzilla :=
  {| production := prod;
     router := r;
     _exception_handlers := [];
     _not_found_handler := None;
     _internal_error_handler := None |}.

Module Dyn.

Definition ExceptionHandler : Type := Request -> Exception -> Result Handed.
Definition NotFoundHandler : Type := Request -> Result Handed.

Record Catzilla : Type := mkCatzilla {
  production : bool;
  router : Router;
  _exception_handlers : list (string * ExceptionHandler);
  _not_found_handler : option NotFoundHandler;
  _internal_error_handler : option ExceptionHandler
}.

Definition flags (self : Catzilla) :=
  flags_only (production self) (router self).

(** The [AttributeError] of [obj.send] on an object without that
    attribute. *)
Definition no_send_attribute (type_name : string) : Exception :=
  AttributeError ("'" +:+ type_name +:+ "' object has no attribute 'send'").

(** [obj.send(client)] on whatever a callback handed back. *)
Definition send_any (obj : Handed) (client : nat) : IO (Result unit) :=
  match obj with
  | HandedResponse r => send r client ;;; io_ret (Return tt)
  | HandedOther type_name => io_ret (Raise (no_send_attribute type_name))
  end.

(** The loop over [self._exception_handlers.items()]. *)
Fixpoint exception_handlers_loop (self : Catzilla) (request : Request)
    (exception : Exception) (items : list (string * ExceptionHandler))
  : IO (option Handed) :=
  match items with
  | [] => io_ret None
  | (exc_type, h) :: items' =>
      if isinstance exception exc_type then
        emit (CallExceptionHandler exc_type request exception) ;;;
        match h request exception with
        | Return obj => io_ret (Some obj)
        | Raise handler_error =>
            io_ret (Some (HandedResponse
                            (handler_failed_response (flags self)
                               handler_error)))
        end
      else exception_handlers_loop self request exception items'
  end.

(** [_handle_exception(request, exception)]. *)
Definition _handle_exception (self : Catzilla) (request : Request)
    (exception : Exception) : IO Handed :=
  found <- exception_handlers_loop self request exception
             (_exception_handlers self) ;;
  match found with
  | Some obj => io_ret obj
  | None =>
      match _internal_error_handler self with
      | Some h =>
          emit (CallInternalErrorHandler request exception) ;;;
          match h request exception with
          | Return obj => io_ret obj
          | Raise handler_error =>
              if production self then
                io_ret (HandedResponse
                          (_get_clean_error_response (flags self) 500
                             "Internal server error" None))
              else
                io_ret
                  (HandedResponse
                     {| status_code := 500;
                        content_type := "text/plain";
                        body := TextBody ("Internal error handler failed: "
                                          +:+ str handler_error);
                        headers :=
                          {[ "X-Error-Detail" := str handler_error ]} |})
          end
      | None =>
          if production self then
            io_ret (HandedResponse
                      (_get_clean_error_response (flags self) 500
                         "Internal server error" None))
          else
            emit PrintTraceback ;;;
            io_ret
              (HandedResponse
                 {| status_code := 500;
                    content_type := "text/plain";
                    body := TextBody ("Internal Server Error: "
                                      +:+ str exception);
                    headers := {[ "X-Error-Detail" := str exception ]} |})
      end
  end.

(** The [else] branch of [if route:] once [allowed_methods] is falsy.
    [not_found_resp.send(client)] is inside the [try], so its
    [AttributeError] is caught like an exception of the handler. *)
Definition not_found_branch (self : Catzilla) (request : Request)
    (client : nat) (method path : string) : IO unit :=
  match _not_found_handler self with
  | Some h =>
      emit (CallNotFoundHandler request) ;;;
      match h request with
      | Return (HandedResponse not_found_resp) => send not_found_resp client
      | Return (HandedOther type_name) =>
          send (not_found_fallback (flags self) (no_send_attribute type_name))
            client
      | Raise handler_error =>
          send (not_found_fallback (flags self) handler_error) client
      end
  | None => send (default_not_found (flags self) method path) client
  end.

(** The dispatcher's lookup. *)
Definition resolve (self : Catzilla) (method path : string) : MatchResult :=
  match_ (router self) method (base_path_of path).

(** What follows the [try] block of the matched branch: nothing when it
    completed, the [except Exception as e] clause when it raised. *)
Definition except_clause (self : Catzilla) (request : Request) (client : nat)
    (r : Result unit) : IO (Result unit) :=
  match r with
  | Return _ => io_ret (Return tt)
  | Raise e =>
      err_resp <- _handle_exception self request e ;;
      send_any err_resp client
  end.

(** [_handle_request(client, method, path, body, request_capsule)].
    [Raise e] means that [e] leaves the function: [err_resp.send(client)]
    in the [except] clause is not guarded. *)
Definition _handle_request (self : Catzilla) (client : nat)
    (method path body : string) (capsule : Capsule) : IO (Result unit) :=
  let base_path := base_path_of path in
  let request := new_request client method path body capsule in
  let '(route, path_params, allowed_methods) :=
    match_ (router self) method base_path in
  let request := set_path_params request path_params in
  match route with
  | Some route =>
      r <- matched_try_block route request client ;;
      except_clause self request client r
  | None =>
      match allowed_methods with
      | Some (m :: ms) =>
          send (method_not_allowed (flags self) method path (m :: ms)) client
          ;;; io_ret (Return tt)
      | _ =>
          not_found_branch self request client method path
          ;;; io_ret (Return tt)
      end
  end.


End Dyn.

(** A callback that keeps to its annotation, seen as one that may hand
    back anything. *)
Definition lift_result (r : Result Response) : Result Handed :=
  match r with
  | Return resp => Return (HandedResponse resp)
  | Raise e => Raise e
  end.

Definition lift (self : Catzilla) : Dyn.Catzilla :=
  {| Dyn.production := production self;
     Dyn.router := router self;
     Dyn._exception_handlers :=
       map (fun kh => (kh.1, fun request e => lift_result (kh.2 request e)))
         (_exception_handlers self);
     Dyn._not_found_handler :=
       option_map (fun h => fun request => lift_result (h request))
         (_not_found_handler self);
     Dyn._internal_error_handler :=
       option_map (fun h => fun request e => lift_result (h request e))
         (_internal_error_handler self) |}.


(** A 404 handler that answers with a 415 response of its own. *)
Definition app_not_found_answers_415 : Dyn.Catzilla :=
  {| Dyn.production := false;
     Dyn.router := demo_router;
     Dyn._exception_handlers := [];
     Dyn._not_found_handler :=
       Some (fun _ => Return (HandedResponse (plain 415 "no such media")));
     Dyn._internal_error_handler := None |}.

(** Unfold the event counters and push them through appended traces. *)
Ltac count_events :=
  unfold sent, handler_calls in *; simpl;
  rewrite ?omap_app, ?List.filter_app, ?length_app; simpl.

(** ** The trace of a sequence *)

Lemma trace_bind {A B} (m : IO A) (f : A -> IO B) :
  trace (io_bind m f) = trace m ++ trace (f (value m)).
Proof.
  destruct m as [a t1]. unfold io_bind, trace, value. simpl.
  now destruct (f a).
Qed.

Lemma value_of_bind {A B} (m : IO A) (f : A -> IO B) :
  value (io_bind m f) = value (f (value m)).
Proof.
  destruct m as [a t1]. unfold io_bind, trace, value. simpl.
  now destruct (f a).
Qed.

(** ** Properties of the error resolver *)

Section Resolver.

Variable self : Catzilla.
Variable request : Request.
Variable e : Exception.

Lemma loop_skips_non_matching items :
  Forall (fun kh => isinstance e kh.1 = false) items ->
  exception_handlers_loop self request e items = (None, []).
Proof.
  induction 1 as [| [k h] items Hk _ IH]; simpl in *; [reflexivity |].
  now rewrite Hk.
Qed.

Lemma loop_first_match pre k h post :
  isinstance e k = true ->
  Forall (fun kh => isinstance e kh.1 = false) pre ->
  exception_handlers_loop self request e (pre ++ (k, h) :: post) =
  (Some (outcome_of self request e h), [CallExceptionHandler k request e]).
Proof.
  intros Hk Hpre.
  induction Hpre as [| [k' h'] pre Hk' _ IH]; simpl in *.
  - rewrite Hk. unfold outcome_of. now destruct (h request e).
  - now rewrite Hk'.
Qed.

(** The loop calls at most handlers, never the route handler, the
    internal-error handler or [send]. *)
Lemma loop_trace_quiet items :
  sent (trace (exception_handlers_loop self request e items)) = []
  /\ handler_calls (trace (exception_handlers_loop self request e items)) = 0%nat
  /\ internal_handler_calls
       (trace (exception_handlers_loop self request e items)) = 0%nat.
Proof.
  induction items as [| [k h] items IH]; simpl; [easy |].
  destruct (isinstance e k); [| exact IH].
  now destruct (h request e).
Qed.

Lemma handle_exception_first_match pre k h post :
  _exception_handlers self = pre ++ (k, h) :: post ->
  isinstance e k = true ->
  Forall (fun kh => isinstance e kh.1 = false) pre ->
  _handle_exception self request e =
  (outcome_of self request e h, [CallExceptionHandler k request e]).
Proof.
  intros Hreg Hk Hpre. unfold _handle_exception.
  rewrite Hreg, (loop_first_match _ _ _ _ Hk Hpre). reflexivity.
Qed.

(** The resolver itself never sends and never calls the route handler. *)
Lemma handle_exception_quiet :
  sent (trace (_handle_exception self request e)) = []
  /\ handler_calls (trace (_handle_exception self request e)) = 0%nat.
Proof.
  unfold _handle_exception.
  destruct (loop_trace_quiet (_exception_handlers self)) as (Hs & Hh & _).
  destruct (exception_handlers_loop self request e (_exception_handlers self))
    as [[r |] t]; simpl in *.
  - rewrite app_nil_r. easy.
  - destruct (_internal_error_handler self) as [h |]; simpl.
    + destruct (h request e); simpl;
        destruct (production self); simpl;
        unfold sent, handler_calls in *;
        rewrite ?omap_app, ?List.filter_app, ?length_app, ?Hs, ?Hh; easy.
    + destruct (production self); simpl;
        unfold sent, handler_calls in *;
        rewrite ?omap_app, ?List.filter_app, ?length_app, ?Hs, ?Hh; easy.
Qed.

Lemma loop_callbacks_see items :
  callbacks_see request
    (trace (exception_handlers_loop self request e items)).
Proof.
  unfold callbacks_see.
  induction items as [| [k h] items IH]; simpl; [constructor |].
  destruct (isinstance e k); [| exact IH].
  destruct (h request e); simpl; repeat constructor;
    simpl; intros r [= <-]; reflexivity.
Qed.

Lemma handle_exception_callbacks_see :
  callbacks_see request (trace (_handle_exception self request e)).
Proof.
  unfold _handle_exception.
  pose proof (loop_callbacks_see (_exception_handlers self)) as Hl.
  destruct (exception_handlers_loop self request e (_exception_handlers self))
    as [[r |] t]; simpl in *; unfold callbacks_see in *.
  - now rewrite app_nil_r.
  - destruct (_internal_error_handler self) as [h |]; simpl.
    + destruct (h request e); simpl; destruct (production self); simpl;
        (apply Forall_app; split; [exact Hl |]);
        repeat constructor; simpl; intros r [= <-]; reflexivity.
    + destruct (production self); simpl;
        (apply Forall_app; split; [exact Hl |]);
        repeat constructor; simpl; intros r; discriminate.
Qed.

End Resolver.

(** C1, as the specification words it, fails: with a handler for
    [Exception] registered before one for [ValueError], a raised
    [ValueError] is given to the [Exception] handler although
    [ValueError] itself has a handler; registering the same two handlers
    in the other order changes which one is called. *)
Lemma most_specific_handler_counterexample :
  ~ selects_most_specific app_generic_first demo_request (ValueError "bad")
  /\ called_exc_types
       (trace (_handle_exception app_generic_first demo_request
                 (ValueError "bad"))) = ["Exception"]
  /\ called_exc_types
       (trace (_handle_exception app_specific_first demo_request
                 (ValueError "bad"))) = ["ValueError"].
Proof.
  split; [| split; reflexivity].
  unfold selects_most_specific. intros H. vm_compute in H. discriminate H.
Qed.

(** C1 (amended): the resolver hands the exception to the first handler,
    in registration order, whose registered kind is the raised
    exception's kind or one of its ancestors; that handler is the only
    per-type handler called and its outcome is the resolver's result. *)
Theorem first_registered_match_handles
    (self : Catzilla) (request : Request) (e : Exception)
    (pre : list (string * ExceptionHandler)) (k : string)
    (h : ExceptionHandler) (post : list (string * ExceptionHandler)) :
  _exception_handlers self = pre ++ (k, h) :: post ->
  isinstance e k = true ->
  Forall (fun kh => isinstance e kh.1 = false) pre ->
  called_exc_types (trace (_handle_exception self request e)) = [k]
  /\ value (_handle_exception self request e) = outcome_of self request e h.
Proof.
  intros Hreg Hk Hpre.
  rewrite (handle_exception_first_match _ _ _ _ _ _ _ Hreg Hk Hpre).
  split; reflexivity.
Qed.

Lemma first_registered_match_handles_witness :
  called_exc_types
    (trace (_handle_exception app_specific_first demo_request
              (RuntimeError "boom"))) = ["Exception"]
  /\ value (_handle_exception app_specific_first demo_request
              (RuntimeError "boom"))
     = outcome_of app_specific_first demo_request (RuntimeError "boom")
         generic_handler.
Proof.
  apply (first_registered_match_handles app_specific_first demo_request
           (RuntimeError "boom") [("ValueError", value_handler)]
           "Exception" generic_handler []).
  - reflexivity.
  - reflexivity.
  - repeat constructor.
Defined.

(** C2, as the specification words it, fails: the handler chosen for a
    [ValueError] raises, an internal-error handler is registered, and yet
    that handler is never called; the result is the default 500 response,
    not the internal-error handler's 503. *)
Lemma failing_handler_retry_counterexample :
  ~ retries_once_via_internal_handler (app_failing_handler true) demo_request
      (ValueError "bad")
  /\ called_exc_types
       (trace (_handle_exception (app_failing_handler true) demo_request
                 (ValueError "bad"))) = ["ValueError"]
  /\ failing_handler demo_request (ValueError "bad")
     = Raise (RuntimeError "handler broke")
  /\ _internal_error_handler (app_failing_handler true) = Some internal_handler
  /\ status_code
       (value (_handle_exception (app_failing_handler true) demo_request
                 (ValueError "bad"))) = 500%Z.
Proof.
  split; [| repeat split].
  unfold retries_once_via_internal_handler. intros H. vm_compute in H.
  discriminate H.
Qed.

(** C2 (amended): when the per-type handler chosen for an exception
    itself raises, the resolver does not consult the internal-error
    handler; it returns the default 500 response at once: the terse JSON
    error in production, and in debug mode a text body naming the handler
    failure together with an [X-Error-Detail] header. *)
Theorem failing_handler_gets_default_500
    (self : Catzilla) (request : Request) (e : Exception)
    (pre : list (string * ExceptionHandler)) (k : string)
    (h : ExceptionHandler) (post : list (string * ExceptionHandler))
    (handler_error : Exception) :
  _exception_handlers self = pre ++ (k, h) :: post ->
  isinstance e k = true ->
  Forall (fun kh => isinstance e kh.1 = false) pre ->
  h request e = Raise handler_error ->
  _handle_exception self request e
  = (handler_failed_response self handler_error,
     [CallExceptionHandler k request e])
  /\ internal_handler_calls (trace (_handle_exception self request e)) = 0%nat
  /\ status_code (handler_failed_response self handler_error) = 500%Z
  /\ (production self = true ->
      handler_failed_response self handler_error
      = JSONResponse [("error", JStr "Internal server error")] 500)
  /\ (production self = false ->
      body (handler_failed_response self handler_error)
      = TextBody ("Exception handler failed: " +:+ str handler_error)
      /\ headers (handler_failed_response self handler_error)
           !! "X-Error-Detail" = Some (str handler_error)).
Proof.
  intros Hreg Hk Hpre Hraise.
  rewrite (handle_exception_first_match _ _ _ _ _ _ _ Hreg Hk Hpre).
  unfold outcome_of. rewrite Hraise.
  unfold handler_failed_response, _get_clean_error_response.
  split; [reflexivity |]. split; [reflexivity |].
  split; [now destruct (production self) |].
  split; intros ->; [reflexivity |].
  split; [reflexivity | apply lookup_singleton_eq].
Qed.

Lemma failing_handler_gets_default_500_witness :
  _handle_exception (app_failing_handler false) demo_request (ValueError "bad")
  = (handler_failed_response (app_failing_handler false)
       (RuntimeError "handler broke"),
     [CallExceptionHandler "ValueError" demo_request (ValueError "bad")])
  /\ internal_handler_calls
       (trace (_handle_exception (app_failing_handler false) demo_request
                 (ValueError "bad"))) = 0%nat.
Proof.
  destruct (failing_handler_gets_default_500 (app_failing_handler false)
              demo_request (ValueError "bad") [] "ValueError" failing_handler
              [] (RuntimeError "handler broke")) as (H1 & H2 & _).
  - reflexivity.
  - reflexivity.
  - constructor.
  - reflexivity.
  - split; [exact H1 | exact H2].
Defined.

(** ** Properties of the dispatcher *)

Section Dispatcher.

Variable self : Catzilla.
Variable client : nat.
Variables method path body : string.
Variable capsule : Capsule.

Local Notation "'the_request'" :=
  (dispatched_request client method path body capsule).

Lemma handle_request_unmatched pp am :
  resolve self method path = (None, pp, am) ->
  _handle_request self client method path body capsule =
  match am with
  | Some (m :: ms) =>
      send (method_not_allowed self method path (m :: ms)) client
  | _ => not_found_branch self (the_request pp) client method path
  end.
Proof.
  unfold resolve, _handle_request. intros ->. reflexivity.
Qed.

Lemma handle_request_matched route pp am :
  resolve self method path = (Some route, pp, am) ->
  _handle_request self client method path body capsule =
  io_bind (matched_try_block route (the_request pp) client)
    (fun r =>
       match r with
       | Return _ => io_ret tt
       | Raise e =>
           io_bind (_handle_exception self (the_request pp) e)
             (fun err_resp => send err_resp client)
       end).
Proof.
  unfold resolve, _handle_request. intros ->. reflexivity.
Qed.

(** What the [except] clause of the matched branch adds to the trace. *)
Lemma except_clause_sends_once request e :
  sent (trace (io_bind (_handle_exception self request e)
                 (fun err_resp => send err_resp client)))
  = [(client, value (_handle_exception self request e))]
  /\ handler_calls
       (trace (io_bind (_handle_exception self request e)
                 (fun err_resp => send err_resp client))) = 0%nat.
Proof.
  destruct (handle_exception_quiet self request e) as [Hs Hh].
  destruct (_handle_exception self request e) as [r t]; simpl in *.
  count_events. rewrite Hs, Hh. easy.
Qed.

(** Once the gate is passed, the route handler is called exactly once
    and exactly one response is sent. *)
Lemma after_gate_one_call_one_response route request :
  let run :=
    io_bind (call_route_handler route request client)
      (fun r =>
         match r with
         | Return _ => io_ret tt
         | Raise e =>
             io_bind (_handle_exception self request e)
               (fun err_resp => send err_resp client)
         end) in
  handler_calls (trace run) = 1%nat
  /\ exists r, sent (trace run) = [(client, r)].
Proof.
  unfold call_route_handler. simpl.
  destruct (handler route request) as [v | e]; simpl.
  - destruct (normalize v) as [r | e]; simpl.
    + split; [reflexivity | now exists r].
    + destruct (except_clause_sends_once request e) as [Hs Hh].
      destruct (io_bind _ _) as [u t]; simpl in *.
      split; [| eauto]. unfold handler_calls in *. simpl. now rewrite Hh.
  - destruct (except_clause_sends_once request e) as [Hs Hh].
    destruct (io_bind _ _) as [u t]; simpl in *.
    split; [| eauto]. unfold handler_calls in *. simpl. now rewrite Hh.
Qed.

End Dispatcher.

(** ** The query string and the route lookup *)

Lemma contains_append_sep (c : ascii) (b q : string) :
  Py.contains c (b +:+ String c q) = true.
Proof.
  induction b as [| a b IH]; simpl.
  - now rewrite Ascii.eqb_refl.
  - now destruct (Ascii.eqb a c).
Qed.

Lemma split1_head_append_sep (c : ascii) (b q : string) :
  Py.split1_head c (b +:+ String c q) = Py.split1_head c b.
Proof.
  induction b as [| a b IH]; simpl.
  - now rewrite Ascii.eqb_refl.
  - destruct (Ascii.eqb a c); [reflexivity | now rewrite IH].
Qed.

Lemma split1_head_no_sep (c : ascii) (b : string) :
  Py.contains c b = false -> Py.split1_head c b = b.
Proof.
  induction b as [| a b IH]; simpl; [reflexivity |].
  destruct (Ascii.eqb a c); [discriminate |].
  intros H. now rewrite (IH H).
Qed.

(** The base path of [b?q] is the part of [b] before its first ["?"]. *)
Lemma base_path_of_query (b q : string) :
  base_path_of (b +:+ "?" +:+ q) = Py.split1_head "?" b.
Proof.
  unfold base_path_of. change ("?" +:+ q) with (String "?" q).
  now rewrite contains_append_sep, split1_head_append_sep.
Qed.

Lemma base_path_of_plain (b : string) :
  Py.contains "?" b = false -> base_path_of b = b.
Proof. unfold base_path_of. now intros ->. Qed.

(** Every callback of one dispatch is called with the request object
    built from the full path. *)
Lemma handle_request_callbacks_see
    (self : Catzilla) (client : nat) (method path body : string)
    (capsule : Capsule) :
  callbacks_see
    (dispatched_request client method path body capsule
       (resolve self method path).1.2)
    (trace (_handle_request self client method path body capsule)).
Proof.
  destruct (resolve self method path) as [[[route |] pp] am] eqn:Hm; simpl.
  - rewrite (handle_request_matched _ _ _ _ _ _ _ _ _ Hm).
    set (request := dispatched_request _ _ _ _ _ _).
    assert (Hexc : forall e,
               callbacks_see request
                 (trace (io_bind (_handle_exception self request e)
                           (fun err_resp => send err_resp client)))).
    { intros e. rewrite trace_bind. apply Forall_app. split.
      - apply handle_exception_callbacks_see.
      - repeat constructor. simpl. discriminate. }
    assert (Hrun : callbacks_see request
              (trace (io_bind (call_route_handler route request client)
                 (fun r => match r with
                           | Return _ => io_ret tt
                           | Raise e =>
                               io_bind (_handle_exception self request e)
                                 (fun err_resp => send err_resp client)
                           end)))).
    { rewrite trace_bind. unfold call_route_handler.
      destruct (handler route request) as [v | e]; simpl.
      - destruct (normalize v) as [r | e]; simpl.
        + repeat constructor; simpl; intros r0; [intros [= <-] |]; easy.
        + constructor; [simpl; intros r0 [= <-]; reflexivity | apply Hexc].
      - constructor; [simpl; intros r0 [= <-]; reflexivity | apply Hexc]. }
    unfold matched_try_block.
    destruct (req_content_type request) as [ct |]; [| exact Hrun].
    destruct (gate_rejects (Some ct)); [| exact Hrun].
    simpl. repeat constructor. simpl. discriminate.
  - rewrite (handle_request_unmatched _ _ _ _ _ _ _ _ Hm).
    destruct am as [[| m ms] |]; simpl;
      try (repeat constructor; simpl; discriminate);
      unfold not_found_branch;
      (destruct (_not_found_handler self) as [h |]; simpl;
       [destruct (h _); simpl |]);
      repeat constructor; simpl; intros r0; try discriminate;
      intros [= <-]; reflexivity.
Qed.

(** C8: two requests that differ only behind the first ["?"] are looked
    up under the same base path and so resolve to the same route, path
    parameters and allowed methods, which are those of the path without a
    query string; the request object handed to every callback still holds
    the full path, query string included, with the resolved path
    parameters. *)
Theorem routing_ignores_query_string
    (self : Catzilla) (client : nat) (method body : string)
    (capsule : Capsule) (b q1 q2 : string) :
  resolve self method (b +:+ "?" +:+ q1) = resolve self method (b +:+ "?" +:+ q2)
  /\ (Py.contains "?" b = false ->
      resolve self method (b +:+ "?" +:+ q1) = resolve self method b)
  /\ forall ev r,
       ev ∈ trace (_handle_request self client method (b +:+ "?" +:+ q1)
                     body capsule) ->
       event_request ev = Some r ->
       req_path r = b +:+ "?" +:+ q1
       /\ path_params r = (resolve self method (b +:+ "?" +:+ q2)).1.2.
Proof.
  assert (Hq : forall q q', resolve self method (b +:+ "?" +:+ q)
                            = resolve self method (b +:+ "?" +:+ q')).
  { intros q q'. unfold resolve. now rewrite !base_path_of_query. }
  split; [apply Hq |]. split.
  - intros Hb. unfold resolve.
    now rewrite base_path_of_query, (base_path_of_plain _ Hb),
      (split1_head_no_sep _ _ Hb).
  - intros ev r Hin Hev.
    pose proof (handle_request_callbacks_see self client method
                  (b +:+ "?" +:+ q1) body capsule) as Hsee.
    unfold callbacks_see in Hsee. rewrite Forall_forall in Hsee.
    rewrite (Hsee ev Hin r Hev), (Hq q2 q1). split; reflexivity.
Qed.

Lemma routing_ignores_query_string_witness :
  resolve (base_app false) "GET" "/hello?x=1"
  = resolve (base_app false) "GET" "/hello"
  /\ (forall r,
         event_request (CallHandler
                          (dispatched_request 7 "GET" "/hello?x=1" ""
                             (mkCapsule None) ∅)) = Some r ->
         req_path r = "/hello?x=1").
Proof.
  destruct (routing_ignores_query_string (base_app false) 7 "GET" ""
              (mkCapsule None) "/hello" "x=1" "y=2") as (_ & Hplain & Hreq).
  split.
  - apply Hplain. reflexivity.
  - intros r Hr. apply (Hreq _ r) in Hr; [apply Hr |].
    vm_compute. left.
Defined.

(** ** Method not allowed *)

(** In debug mode the 405 response carries the [Allow] header: the
    allowed methods in ascending order, joined by a comma and a space. *)
Lemma method_not_allowed_debug
    (self : Catzilla) (method path : string) (allowed : list string) :
  production self = false ->
  status_code (method_not_allowed self method path allowed) = 405%Z
  /\ headers (method_not_allowed self method path allowed) !! "Allow"
     = Some (Py.join ", " (Py.sorted allowed))
  /\ Sorted String.le (Py.sorted allowed)
  /\ Py.sorted allowed ≡ₚ allowed.
Proof.
  intros Hdebug. unfold method_not_allowed. rewrite Hdebug. simpl.
  split; [reflexivity |]. split; [apply lookup_insert_eq |].
  split; [apply Sorted_merge_sort; apply _ | apply merge_sort_Permutation].
Qed.

(** In production the 405 response is the terse JSON error: the detail
    string with the allowed methods is dropped and no header is set. *)
Lemma method_not_allowed_production
    (self : Catzilla) (method path : string) (allowed : list string) :
  production self = true ->
  method_not_allowed self method path allowed
  = JSONResponse [("error", JStr "Method not allowed")] 405.
Proof.
  intros Hprod. unfold method_not_allowed, _get_clean_error_response.
  rewrite Hprod. now rewrite andb_false_r.
Qed.

Example debug_405_allow_header :
  headers (method_not_allowed (base_app false) "PUT" "/v"
             ["POST"; "GET"; "DELETE"]) !! "Allow"
  = Some "DELETE, GET, POST".
Proof. reflexivity. Qed.

(** C3: in production mode a request whose path is registered but whose
    method is not gets a 405 response without any [Allow] header, whereas
    the claim asks for the header in both modes: a PUT to [/v], where
    DELETE, GET and POST are allowed, is answered with the bare JSON
    error. *)
Theorem production_405_lacks_allow_header :
  production (base_app true) = true
  /\ resolve (base_app true) "PUT" "/v"
     = (None, ∅, Some ["POST"; "GET"; "DELETE"])
  /\ sent (trace (_handle_request (base_app true) 7 "PUT" "/v" ""
                    (mkCapsule None)))
     = [(7, JSONResponse [("error", JStr "Method not allowed")] 405)]
  /\ headers (JSONResponse [("error", JStr "Method not allowed")] 405)
       !! "Allow" = None.
Proof. repeat split. Qed.

(** ** Not found *)




(** ** Normalisation of a handler's return value *)

(** C5, as the specification words it, fails: a route handler that
    returns [None] does not produce a 204 response; the value is rejected
    as an unsupported type and the request is answered with 500. *)
Lemma none_return_counterexample :
  resolve (base_app false) "GET" "/none" = (Some none_route, ∅, None)
  /\ handler none_route
       (dispatched_request 7 "GET" "/none" "" (mkCapsule None) ∅)
     = Return RetNone
  /\ sent_statuses
       (trace (_handle_request (base_app false) 7 "GET" "/none" ""
                 (mkCapsule None))) = [500%Z]
  /\ ~ sent_statuses
         (trace (_handle_request (base_app false) 7 "GET" "/none" ""
                   (mkCapsule None))) = [204%Z].
Proof.
  split; [reflexivity |]. split; [reflexivity |]. split; [reflexivity |].
  intros H. vm_compute in H. discriminate H.
Qed.

(** C5 (amended): when the handler of a matched request that passed the
    content-type gate returns [None], normalisation raises a [TypeError]
    naming the unsupported type; the dispatcher hands it to the error
    resolver and sends the resolver's response, which is the default 500
    response when no error handler is registered. *)
Theorem none_return_is_type_error
    (self : Catzilla) (client : nat) (method path raw_body : string)
    (capsule : Capsule) (route : Route) (pp : gmap string string)
    (am : option (list string)) :
  let request := dispatched_request client method path raw_body capsule pp in
  let exc :=
    TypeError ("Handler returned unsupported type <class 'NoneType'>. "
               +:+ "Must return Response, dict, or str.") in
  resolve self method path = (Some route, pp, am) ->
  gate_rejects (capsule_content_type capsule) = false ->
  handler route request = Return RetNone ->
  normalize RetNone = Raise exc
  /\ trace (_handle_request self client method path raw_body capsule)
     = CallHandler request
         :: trace (_handle_exception self request exc)
         ++ [Send client (value (_handle_exception self request exc))]
  /\ (_exception_handlers self = [] ->
      _internal_error_handler self = None ->
      status_code (value (_handle_exception self request exc)) = 500%Z).
Proof.
  intros request exc Hm Hgate Hnone.
  split; [reflexivity |]. split.
  - rewrite (handle_request_matched _ _ _ _ _ _ _ _ _ Hm).
    fold request. rewrite trace_bind.
    assert (Hblock : matched_try_block route request client
                     = (Raise exc, [CallHandler request])).
    { unfold matched_try_block, req_content_type. simpl.
      rewrite Hgate. unfold call_route_handler. rewrite Hnone.
      now destruct (capsule_content_type capsule). }
    rewrite Hblock. simpl. rewrite trace_bind. reflexivity.
  - intros Hnone_reg Hnone_int. unfold _handle_exception.
    rewrite Hnone_reg, Hnone_int. simpl.
    now destruct (production self).
Qed.

Lemma none_return_is_type_error_witness :
  trace (_handle_request (base_app false) 7 "GET" "/none" "" (mkCapsule None))
  = [CallHandler (dispatched_request 7 "GET" "/none" "" (mkCapsule None) ∅);
     PrintTraceback;
     Send 7
       {| status_code := 500;
          content_type := "text/plain";
          body := TextBody
                    ("Internal Server Error: Handler returned unsupported "
                     +:+ "type <class 'NoneType'>. "
                     +:+ "Must return Response, dict, or str.");
          headers :=
            {[ "X-Error-Detail" :=
                 "Handler returned unsupported type <class 'NoneType'>. "
                 +:+ "Must return Response, dict, or str." ]} |}].
Proof.
  destruct (none_return_is_type_error (base_app false) 7 "GET" "/none" ""
              (mkCapsule None) none_route ∅ None eq_refl eq_refl eq_refl)
    as (_ & Htrace & _).
  exact Htrace.
Defined.

(** ** Error detail in production mode *)

(** The responses that the resolver and the not-found and
    method-not-allowed branches build themselves carry no
    [X-Error-Detail] header in production mode. *)
Lemma production_defaults_carry_no_detail
    (self : Catzilla) (method path : string) (allowed : list string)
    (handler_error : Exception) :
  production self = true ->
  headers (handler_failed_response self handler_error) !! "X-Error-Detail"
  = None
  /\ headers (not_found_fallback self handler_error) !! "X-Error-Detail" = None
  /\ headers (default_not_found self method path) !! "X-Error-Detail" = None
  /\ headers (method_not_allowed self method path allowed) !! "X-Error-Detail"
     = None.
Proof.
  intros Hprod.
  rewrite (method_not_allowed_production _ _ _ _ Hprod).
  unfold handler_failed_response, not_found_fallback, default_not_found.
  rewrite Hprod. repeat split.
Qed.

(** C7: in production mode the 415 response of the content-type gate
    still carries an [X-Error-Detail] header, which the claim rules out:
    the gate builds its response without looking at the production
    flag. *)
Theorem production_415_carries_error_detail :
  production (base_app true) = true
  /\ resolve (base_app true) "GET" "/hello" = (Some hello_route, ∅, None)
  /\ sent (trace (_handle_request (base_app true) 7 "GET" "/hello" ""
                    (mkCapsule (Some "text/xml"))))
     = [(7, unsupported_media_type "text/xml")]
  /\ headers (unsupported_media_type "text/xml") !! "X-Error-Detail"
     = Some "Content-Type text/xml is not supported".
Proof. repeat split. Qed.

(** * Further properties of the dispatcher *)

Section DispatcherBranches.

Variable self : Catzilla.
Variable client : nat.
Variables method path raw_body : string.
Variable capsule : Capsule.

Local Notation "'the_request'" :=
  (dispatched_request client method path raw_body capsule).
Local Notation "'the_run'" :=
  (_handle_request self client method path raw_body capsule).

(** The [try] block when the gate is passed and the handler's value makes
    it to [send]. *)
Lemma try_block_success route pp v r :
  gate_rejects (capsule_content_type capsule) = false ->
  handler route (the_request pp) = Return v ->
  normalize v = Return r ->
  matched_try_block route (the_request pp) client
  = (Return tt, [CallHandler (the_request pp); Send client r]).
Proof.
  intros Hgate Hv Hr. unfold matched_try_block, req_content_type. simpl.
  rewrite Hgate. unfold call_route_handler. rewrite Hv, Hr.
  now destruct (capsule_content_type capsule).
Qed.

(** The [try] block when the handler raises. *)
Lemma try_block_handler_raises route pp e :
  gate_rejects (capsule_content_type capsule) = false ->
  handler route (the_request pp) = Raise e ->
  matched_try_block route (the_request pp) client
  = (Raise e, [CallHandler (the_request pp)]).
Proof.
  intros Hgate He. unfold matched_try_block, req_content_type. simpl.
  rewrite Hgate. unfold call_route_handler. rewrite He.
  now destruct (capsule_content_type capsule).
Qed.

(** The trace of a request whose handler raised. *)
Lemma handle_request_handler_raises route pp am e :
  resolve self method path = (Some route, pp, am) ->
  gate_rejects (capsule_content_type capsule) = false ->
  handler route (the_request pp) = Raise e ->
  trace the_run
  = CallHandler (the_request pp)
      :: trace (_handle_exception self (the_request pp) e)
      ++ [Send client (value (_handle_exception self (the_request pp) e))].
Proof.
  intros Hm Hgate He.
  rewrite (handle_request_matched _ _ _ _ _ _ _ _ _ Hm), trace_bind.
  rewrite (try_block_handler_raises _ _ _ Hgate He). simpl.
  now rewrite trace_bind.
Qed.

(** A request without a route never reaches the route handler or the
    resolver. *)
Lemma unmatched_trace_quiet pp am :
  resolve self method path = (None, pp, am) ->
  handler_calls (trace the_run) = 0%nat
  /\ List.filter is_resolver_event (trace the_run) = [].
Proof.
  intros Hm. rewrite (handle_request_unmatched _ _ _ _ _ _ _ _ Hm).
  unfold not_found_branch.
  destruct am as [[| m ms] |]; destruct (_not_found_handler self) as [h |];
    simpl; try destruct (h _); simpl; split; reflexivity.
Qed.

End DispatcherBranches.

(** X1: the route handler is called exactly once when a route matched
    and the content-type gate let the request through, and not at all
    otherwise; it is never called twice for one request. *)
Theorem route_handler_called_iff_gate_passed
    (self : Catzilla) (client : nat) (method path raw_body : string)
    (capsule : Capsule) :
  handler_calls (trace (_handle_request self client method path raw_body capsule))
  = match (resolve self method path).1.1 with
    | Some _ =>
        if gate_rejects (capsule_content_type capsule) then 0%nat else 1%nat
    | None => 0%nat
    end.
Proof.
  destruct (resolve self method path) as [[[route |] pp] am] eqn:Hm; simpl.
  - rewrite (handle_request_matched _ _ _ _ _ _ _ _ _ Hm).
    unfold matched_try_block, req_content_type. simpl.
    destruct (capsule_content_type capsule) as [ct |].
    + destruct (gate_rejects (Some ct)); [reflexivity |].
      apply after_gate_one_call_one_response.
    + apply after_gate_one_call_one_response.
  - now apply unmatched_trace_quiet with (pp := pp) (am := am).
Qed.

(** X2: when the handler of a matched request returns a value the
    normaliser accepts, nothing but the handler call and one send happens:
    a [Response] is sent as it is, a [dict] as a JSON response with status
    200, a [str] as an HTML response with status 200. *)
Theorem successful_dispatch
    (self : Catzilla) (client : nat) (method path raw_body : string)
    (capsule : Capsule) (route : Route) (pp : gmap string string)
    (am : option (list string)) (v : Returned) :
  let request := dispatched_request client method path raw_body capsule pp in
  resolve self method path = (Some route, pp, am) ->
  gate_rejects (capsule_content_type capsule) = false ->
  handler route request = Return v ->
  (forall r, v = RetResponse r ->
     trace (_handle_request self client method path raw_body capsule)
     = [CallHandler request; Send client r])
  /\ (forall d, v = RetDict d ->
        trace (_handle_request self client method path raw_body capsule)
        = [CallHandler request; Send client (JSONResponse d 200)])
  /\ (forall s, v = RetStr s ->
        trace (_handle_request self client method path raw_body capsule)
        = [CallHandler request; Send client (HTMLResponse s)]).
Proof.
  intros request Hm Hgate Hv.
  assert (Hok : forall r, normalize v = Return r ->
            trace (_handle_request self client method path raw_body capsule)
            = [CallHandler request; Send client r]).
  { intros r Hr.
    rewrite (handle_request_matched _ _ _ _ _ _ _ _ _ Hm), trace_bind.
    now rewrite (try_block_success _ _ _ _ _ _ _ _ _ Hgate Hv Hr). }
  split; [| split]; intros x ->; now apply Hok.
Qed.

Lemma successful_dispatch_witness :
  trace (_handle_request (base_app true) 7 "GET" "/hello?lang=en" ""
           (mkCapsule (Some "text/plain")))
  = [CallHandler (dispatched_request 7 "GET" "/hello?lang=en" ""
                    (mkCapsule (Some "text/plain")) ∅);
     Send 7 (HTMLResponse "hi")].
Proof.
  destruct (successful_dispatch (base_app true) 7 "GET" "/hello?lang=en" ""
              (mkCapsule (Some "text/plain")) hello_route ∅ None
              (RetStr "hi") eq_refl eq_refl eq_refl) as (_ & _ & Hstr).
  exact (Hstr "hi" eq_refl).
Defined.

(** X3: an exception raised by the route handler reaches the registered
    handler that the resolver picks, and that handler's response is the
    one response the client gets. *)
Theorem handler_exception_answered_by_registered_handler
    (self : Catzilla) (client : nat) (method path raw_body : string)
    (capsule : Capsule) (route : Route) (pp : gmap string string)
    (am : option (list string)) (e : Exception)
    (pre : list (string * ExceptionHandler)) (k : string)
    (h : ExceptionHandler) (post : list (string * ExceptionHandler))
    (r : Response) :
  let request := dispatched_request client method path raw_body capsule pp in
  resolve self method path = (Some route, pp, am) ->
  gate_rejects (capsule_content_type capsule) = false ->
  handler route request = Raise e ->
  _exception_handlers self = pre ++ (k, h) :: post ->
  isinstance e k = true ->
  Forall (fun kh => isinstance e kh.1 = false) pre ->
  h request e = Return r ->
  trace (_handle_request self client method path raw_body capsule)
  = [CallHandler request; CallExceptionHandler k request e; Send client r].
Proof.
  intros request Hm Hgate He Hreg Hk Hpre Hr.
  rewrite (handle_request_handler_raises _ _ _ _ _ _ _ _ _ _ Hm Hgate He).
  fold request.
  rewrite (handle_exception_first_match _ _ _ _ _ _ _ Hreg Hk Hpre).
  unfold outcome_of. now rewrite Hr.
Qed.

Lemma handler_exception_answered_by_registered_handler_witness :
  trace (_handle_request app_specific_first 7 "GET" "/v" "" (mkCapsule None))
  = [CallHandler demo_request;
     CallExceptionHandler "ValueError" demo_request (ValueError "bad");
     Send 7 (plain 400 "value")].
Proof.
  apply (handler_exception_answered_by_registered_handler app_specific_first
           7 "GET" "/v" "" (mkCapsule None) raising_route ∅ None
           (ValueError "bad") [] "ValueError" value_handler
           [("Exception", generic_handler)] (plain 400 "value"));
    try reflexivity.
  constructor.
Defined.

(** X4: a request without a route never involves the error resolver: no
    per-type handler, no internal-error handler and no traceback, even
    when the registered 404 handler raises. *)
Theorem unmatched_request_bypasses_resolver
    (self : Catzilla) (client : nat) (method path raw_body : string)
    (capsule : Capsule) (pp : gmap string string)
    (am : option (list string)) :
  resolve self method path = (None, pp, am) ->
  List.filter is_resolver_event
    (trace (_handle_request self client method path raw_body capsule)) = [].
Proof.
  intros Hm. now apply unmatched_trace_quiet with (pp := pp) (am := am).
Qed.

Lemma unmatched_request_bypasses_resolver_witness :
  failing_not_found
    (dispatched_request 7 "GET" "/missing" "" (mkCapsule None) ∅)
  = Raise (RuntimeError "nf broke")
  /\ List.filter is_resolver_event
       (trace (_handle_request app_guarded_not_found 7 "GET" "/missing" ""
                 (mkCapsule None))) = [].
Proof.
  split; [reflexivity |].
  exact (unmatched_request_bypasses_resolver app_guarded_not_found 7 "GET"
           "/missing" "" (mkCapsule None) ∅ None eq_refl).
Defined.

(** ** The Allow header *)

(** Sorting depends on the collection only, not on the order in which it
    is enumerated. *)
Lemma sorted_permutation_invariant (l l' : list string) :
  l ≡ₚ l' -> Py.sorted l = Py.sorted l'.
Proof.
  intros Hperm. unfold Py.sorted.
  apply (Sorted_unique String.le).
  - apply Sorted_merge_sort; apply _.
  - apply Sorted_merge_sort; apply _.
  - now rewrite !merge_sort_Permutation.
Qed.

(** X5: in debug mode, a request whose path is registered but whose
    method is not gets one 405 text response; its [Allow] header lists
    exactly the allowed methods, in ascending order, joined by a comma
    and a space, and [X-Error-Path] repeats the full request path. *)
Theorem debug_405_lists_allowed_methods
    (self : Catzilla) (client : nat) (method path raw_body : string)
    (capsule : Capsule) (pp : gmap string string) (allowed : list string) :
  resolve self method path = (None, pp, Some allowed) ->
  allowed <> [] ->
  production self = false ->
  exists r,
    trace (_handle_request self client method path raw_body capsule)
    = [Send client r]
    /\ status_code r = 405%Z
    /\ headers r !! "Allow" = Some (Py.join ", " (Py.sorted allowed))
    /\ headers r !! "X-Error-Path" = Some path
    /\ Sorted String.le (Py.sorted allowed)
    /\ Py.sorted allowed ≡ₚ allowed.
Proof.
  intros Hm Hne Hdebug.
  rewrite (handle_request_unmatched _ _ _ _ _ _ _ _ Hm).
  destruct allowed as [| m ms]; [congruence |].
  exists (method_not_allowed self method path (m :: ms)).
  unfold method_not_allowed. rewrite Hdebug. simpl.
  split; [reflexivity |]. split; [reflexivity |].
  split; [apply lookup_insert_eq |].
  split; [rewrite lookup_insert_ne by discriminate;
          apply lookup_singleton_eq |].
  split; [apply Sorted_merge_sort; apply _ | apply merge_sort_Permutation].
Qed.

Lemma debug_405_lists_allowed_methods_witness :
  exists r,
    trace (_handle_request (base_app false) 7 "PUT" "/v?x=1" ""
             (mkCapsule None)) = [Send 7 r]
    /\ status_code r = 405%Z
    /\ headers r !! "Allow" = Some "DELETE, GET, POST"
    /\ headers r !! "X-Error-Path" = Some "/v?x=1".
Proof.
  destruct (debug_405_lists_allowed_methods (base_app false) 7 "PUT" "/v?x=1"
              "" (mkCapsule None) ∅ ["POST"; "GET"; "DELETE"])
    as (r & Ht & Hs & Ha & Hp & _).
  - reflexivity.
  - discriminate.
  - reflexivity.
  - exists r. split; [exact Ht |]. split; [exact Hs |].
    split; [exact Ha | exact Hp].
Defined.

(** X6: the 405 response depends on which methods are allowed, not on
    the order in which the router enumerates them. *)
Theorem allow_header_ignores_enumeration_order
    (self : Catzilla) (method path : string) (allowed allowed' : list string) :
  allowed ≡ₚ allowed' ->
  method_not_allowed self method path allowed
  = method_not_allowed self method path allowed'.
Proof.
  intros Hperm. unfold method_not_allowed.
  now rewrite (sorted_permutation_invariant _ _ Hperm).
Qed.

Lemma allow_header_ignores_enumeration_order_witness :
  method_not_allowed (base_app false) "PUT" "/v" ["POST"; "GET"; "DELETE"]
  = method_not_allowed (base_app false) "PUT" "/v" ["GET"; "DELETE"; "POST"].
Proof.
  apply allow_header_ignores_enumeration_order.
  change (["POST"] ++ ["GET"; "DELETE"] ≡ₚ ["GET"; "DELETE"] ++ ["POST"]).
  apply Permutation_app_comm.
Defined.

(** ** The base path *)

Lemma split1_head_has_no_sep (c : ascii) (s : string) :
  Py.contains c (Py.split1_head c s) = false.
Proof.
  induction s as [| a s IH]; simpl; [reflexivity |].
  destruct (Ascii.eqb a c) eqn:Hac; simpl; [reflexivity |].
  now rewrite Hac.
Qed.

Lemma split1_head_decompose (c : ascii) (s : string) :
  Py.contains c s = true ->
  exists q, s = Py.split1_head c s +:+ String c q.
Proof.
  induction s as [| a s IH]; simpl; [discriminate |].
  destruct (Ascii.eqb a c) eqn:Hac.
  - intros _. apply Ascii.eqb_eq in Hac. subst a. now exists s.
  - intros Hs. destruct (IH Hs) as [q Hq]. exists q.
    change (String a s = String a (Py.split1_head c s +:+ String c q)).
    now f_equal.
Qed.

Lemma append_empty_r (s : string) : s = s +:+ "".
Proof.
  induction s as [| a s IH]; [reflexivity |].
  change (String a s = String a (s +:+ "")). now f_equal.
Qed.

(** X7: the path used for routing never contains a ["?"]; the request
    path is that base path followed by nothing or by ["?"] and the query
    string; taking the base path twice changes nothing. *)
Theorem base_path_shape (path : string) :
  Py.contains "?" (base_path_of path) = false
  /\ (exists rest,
         path = base_path_of path +:+ rest
         /\ (rest = "" \/ exists q, rest = String "?" q))
  /\ base_path_of (base_path_of path) = base_path_of path.
Proof.
  unfold base_path_of at 1 2.
  destruct (Py.contains "?" path) eqn:Hc.
  - split; [apply split1_head_has_no_sep |]. split.
    + destruct (split1_head_decompose _ _ Hc) as [q Hq].
      exists (String "?" q). split; [exact Hq | right; now exists q].
    + unfold base_path_of. rewrite Hc.
      now rewrite split1_head_has_no_sep.
  - split; [exact Hc |]. split.
    + exists "". split; [apply append_empty_r | now left].
    + unfold base_path_of. now rewrite Hc, Hc.
Qed.

(** * Further properties of the error resolver *)

Section ResolverFallbacks.

Variable self : Catzilla.
Variable request : Request.
Variable e : Exception.

(** The loop either returns from its one handler call or ends without
    having called anything. *)
Lemma loop_outcome items :
  match value (exception_handlers_loop self request e items) with
  | Some r =>
      exists k h,
        (k, h) ∈ items /\ isinstance e k = true
        /\ r = outcome_of self request e h
        /\ trace (exception_handlers_loop self request e items)
           = [CallExceptionHandler k request e]
  | None =>
      trace (exception_handlers_loop self request e items) = []
      /\ Forall (fun kh => isinstance e kh.1 = false) items
  end.
Proof.
  induction items as [| [k h] items IH]; simpl.
  - split; [reflexivity | constructor].
  - destruct (isinstance e k) eqn:Hk.
    + unfold outcome_of.
      destruct (h request e) eqn:Hh; simpl; exists k, h;
        (split; [left |]); (split; [exact Hk |]); rewrite ?Hh; easy.
    + destruct (value (exception_handlers_loop self request e items)).
      * destruct IH as (k' & h' & Hin & Hk' & Hr & Ht).
        exists k', h'. split; [now right | easy].
      * destruct IH as [Ht Hall]. split; [exact Ht |]. now constructor.
Qed.

Lemma handle_exception_no_match :
  Forall (fun kh => isinstance e kh.1 = false) (_exception_handlers self) ->
  _handle_exception self request e
  = match _internal_error_handler self with
    | Some h =>
        (match h request e with
         | Return r => r
         | Raise handler_error =>
             internal_handler_failed_response self handler_error
         end, [CallInternalErrorHandler request e])
    | None =>
        if production self then (terse_500, [])
        else (debug_internal_server_error e, [PrintTraceback])
    end.
Proof.
  intros Hall. unfold _handle_exception.
  rewrite (loop_skips_non_matching _ _ _ _ Hall). simpl.
  unfold internal_handler_failed_response.
  destruct (_internal_error_handler self) as [h |]; simpl.
  - destruct (h request e); simpl; [reflexivity |].
    now destruct (production self).
  - now destruct (production self).
Qed.

End ResolverFallbacks.

(** X8: when no registered per-type handler applies to the exception,
    a registered internal-error handler is called, once, with the request
    and the exception, and its response is the result; when it raises,
    the result is the terse JSON 500 in production and, in debug mode, a
    500 text response naming the failure of the internal-error handler. *)
Theorem internal_handler_handles_unmatched_kinds
    (self : Catzilla) (request : Request) (e : Exception)
    (h : ExceptionHandler) :
  Forall (fun kh => isinstance e kh.1 = false) (_exception_handlers self) ->
  _internal_error_handler self = Some h ->
  trace (_handle_exception self request e)
  = [CallInternalErrorHandler request e]
  /\ (forall r, h request e = Return r ->
        value (_handle_exception self request e) = r)
  /\ (forall handler_error, h request e = Raise handler_error ->
        value (_handle_exception self request e)
        = internal_handler_failed_response self handler_error
        /\ status_code (internal_handler_failed_response self handler_error)
           = 500%Z
        /\ (production self = false ->
            body (internal_handler_failed_response self handler_error)
            = TextBody ("Internal error handler failed: "
                        +:+ str handler_error)
            /\ headers (internal_handler_failed_response self handler_error)
                 !! "X-Error-Detail" = Some (str handler_error))).
Proof.
  intros Hall Hint.
  rewrite (handle_exception_no_match _ _ _ Hall), Hint. simpl.
  split; [reflexivity |]. split.
  - now intros r ->.
  - intros he ->. split; [reflexivity |].
    unfold internal_handler_failed_response.
    split; [now destruct (production self) |].
    intros ->. split; [reflexivity | apply lookup_singleton_eq].
Qed.

Lemma internal_handler_handles_unmatched_kinds_witness :
  trace (_handle_exception (app_failing_internal false) demo_request
           (ValueError "bad"))
  = [CallInternalErrorHandler demo_request (ValueError "bad")]
  /\ body (value (_handle_exception (app_failing_internal false) demo_request
                    (ValueError "bad")))
     = TextBody "Internal error handler failed: handler broke".
Proof.
  destruct (internal_handler_handles_unmatched_kinds
              (app_failing_internal false) demo_request (ValueError "bad")
              failing_handler) as (Ht & _ & Hraise).
  - repeat constructor.
  - reflexivity.
  - split; [exact Ht |].
    destruct (Hraise (RuntimeError "handler broke") eq_refl) as (-> & _ & Hd).
    apply Hd. reflexivity.
Defined.

(** X9: when no per-type handler applies and no internal-error handler
    is registered, the resolver calls nothing; production mode answers
    with the terse JSON 500 and prints no traceback, debug mode prints the
    traceback and answers with a 500 text response whose body and
    [X-Error-Detail] header carry the text of the exception. *)
Theorem default_500_without_handlers
    (self : Catzilla) (request : Request) (e : Exception) :
  Forall (fun kh => isinstance e kh.1 = false) (_exception_handlers self) ->
  _internal_error_handler self = None ->
  (production self = true ->
   _handle_exception self request e = (terse_500, [])
   /\ headers terse_500 !! "X-Error-Detail" = None)
  /\ (production self = false ->
      _handle_exception self request e
      = (debug_internal_server_error e, [PrintTraceback])
      /\ status_code (debug_internal_server_error e) = 500%Z
      /\ body (debug_internal_server_error e)
         = TextBody ("Internal Server Error: " +:+ str e)
      /\ headers (debug_internal_server_error e) !! "X-Error-Detail"
         = Some (str e)).
Proof.
  intros Hall Hint.
  rewrite (handle_exception_no_match _ _ _ Hall), Hint.
  split; intros ->.
  - split; reflexivity.
  - split; [reflexivity |]. split; [reflexivity |].
    split; [reflexivity | apply lookup_singleton_eq].
Qed.

Lemma default_500_without_handlers_witness :
  _handle_exception (base_app false) demo_request (ValueError "bad")
  = (debug_internal_server_error (ValueError "bad"), [PrintTraceback])
  /\ headers (debug_internal_server_error (ValueError "bad"))
       !! "X-Error-Detail" = Some "bad".
Proof.
  destruct (default_500_without_handlers (base_app false) demo_request
              (ValueError "bad")) as [_ Hdebug].
  - constructor.
  - reflexivity.
  - destruct (Hdebug eq_refl) as (Hrun & _ & _ & Hhdr).
    split; [exact Hrun | exact Hhdr].
Defined.

Lemma error_handler_calls_app (t1 t2 : list Event) :
  error_handler_calls (t1 ++ t2)
  = (error_handler_calls t1 + error_handler_calls t2)%nat.
Proof.
  unfold error_handler_calls, called_exc_types, internal_handler_calls.
  rewrite omap_app, List.filter_app, !length_app. lia.
Qed.

Lemma resolver_error_handler_calls
    (self : Catzilla) (request : Request) (e : Exception) :
  error_handler_calls (trace (_handle_exception self request e))
  = if existsb (fun kh => isinstance e kh.1) (_exception_handlers self)
       || bool_decide (is_Some (_internal_error_handler self))
    then 1%nat else 0%nat.
Proof.
  unfold _handle_exception. rewrite trace_bind.
  pose proof (loop_outcome self request e (_exception_handlers self)) as Hl.
  destruct (value (exception_handlers_loop self request e
                     (_exception_handlers self))) as [r |].
  - destruct Hl as (k & h & Hin & Hk & _ & ->).
    assert (Hex : existsb (fun kh => isinstance e kh.1)
                    (_exception_handlers self) = true).
    { apply existsb_exists. exists (k, h).
      split; [now apply list_elem_of_In | exact Hk]. }
    now rewrite Hex.
  - destruct Hl as [-> Hall].
    assert (Hex : existsb (fun kh => isinstance e kh.1)
                    (_exception_handlers self) = false).
    { apply not_true_is_false. intros Hex.
      apply existsb_exists in Hex as ([k h] & Hin & Hk).
      rewrite Forall_forall in Hall. apply list_elem_of_In in Hin.
      specialize (Hall _ Hin). simpl in *. congruence. }
    rewrite Hex. simpl.
    destruct (_internal_error_handler self) as [h |]; simpl.
    + now destruct (h request e); simpl; destruct (production self).
    + now destruct (production self).
Qed.

(** X10: handling one request calls at most one error handler, per-type
    or internal; the resolver calls exactly one when some registered kind
    applies to the exception or an internal-error handler is registered,
    and none otherwise. *)
Theorem at_most_one_error_handler_call
    (self : Catzilla) (client : nat) (method path raw_body : string)
    (capsule : Capsule) :
  (error_handler_calls
     (trace (_handle_request self client method path raw_body capsule))
   <= 1)%nat
  /\ forall request e,
       error_handler_calls (trace (_handle_exception self request e))
       = if existsb (fun kh => isinstance e kh.1) (_exception_handlers self)
            || bool_decide (is_Some (_internal_error_handler self))
         then 1%nat else 0%nat.
Proof.
  split; [| apply resolver_error_handler_calls].
  assert (Hres : forall request e,
            (error_handler_calls
               (trace (io_bind (_handle_exception self request e)
                         (fun err_resp => send err_resp client))) <= 1)%nat).
  { intros request e. rewrite trace_bind, error_handler_calls_app.
    rewrite resolver_error_handler_calls.
    destruct (_ || _); simpl;
      unfold error_handler_calls, internal_handler_calls; simpl; lia. }
  destruct (resolve self method path) as [[[route |] pp] am] eqn:Hm.
  - rewrite (handle_request_matched _ _ _ _ _ _ _ _ _ Hm), trace_bind.
    set (request := dispatched_request _ _ _ _ _ _).
    assert (Hrun : forall rest,
              (error_handler_calls rest <= 1)%nat ->
              (error_handler_calls (CallHandler request :: rest) <= 1)%nat).
    { intros rest. unfold error_handler_calls, internal_handler_calls.
      simpl. lia. }
    unfold matched_try_block, call_route_handler.
    destruct (req_content_type request) as [ct |];
      [destruct (gate_rejects (Some ct));
       [unfold error_handler_calls, internal_handler_calls; simpl; lia |] |];
      (destruct (handler route request) as [v | e]; simpl;
       [destruct (normalize v) as [r | e]; simpl;
        [unfold error_handler_calls, internal_handler_calls; simpl; lia |] |];
       apply Hrun, Hres).
  - destruct (unmatched_trace_quiet self client method path raw_body capsule
                pp am Hm) as [_ Hquiet].
    revert Hquiet.
    generalize (trace (_handle_request self client method path raw_body
                         capsule)).
    intros t. unfold error_handler_calls, called_exc_types,
      internal_handler_calls.
    induction t as [| ev t IH]; simpl; [lia |].
    destruct ev; simpl; try discriminate; exact IH.
Qed.

(** X11: in production mode every response of the resolver is either
    what a registered handler that applies to the exception returned, or
    what the internal-error handler returned, or the terse JSON 500, which
    does not depend on the exception; no traceback is printed. *)
Theorem production_resolver_response
    (self : Catzilla) (request : Request) (e : Exception) :
  production self = true ->
  (value (_handle_exception self request e) = terse_500
   \/ (exists k h,
          (k, h) ∈ _exception_handlers self /\ isinstance e k = true
          /\ h request e = Return (value (_handle_exception self request e)))
   \/ (exists h,
          _internal_error_handler self = Some h
          /\ h request e = Return (value (_handle_exception self request e))))
  /\ PrintTraceback ∉ trace (_handle_exception self request e).
Proof.
  intros Hprod.
  pose proof (loop_outcome self request e (_exception_handlers self)) as Hl.
  unfold _handle_exception. rewrite trace_bind.
  destruct (exception_handlers_loop self request e (_exception_handlers self))
    as [[r |] t] eqn:Hloop; simpl in *.
  - destruct Hl as (k & h & Hin & Hk & Hr & ->). split.
    + unfold outcome_of, handler_failed_response in Hr. rewrite Hprod in Hr.
      destruct (h request e) as [r' | he] eqn:Hh.
      * right. left. exists k, h. subst r. easy.
      * left. exact Hr.
    + intros Hin'. apply list_elem_of_singleton in Hin'. discriminate.
  - destruct Hl as [-> _]. rewrite Hprod.
    destruct (_internal_error_handler self) as [h |]; simpl.
    + destruct (h request e) as [r' | he] eqn:Hh; simpl; split;
        try (intros Hin'; apply list_elem_of_singleton in Hin'; discriminate).
      * right. right. now exists h.
      * now left.
    + split; [now left | apply not_elem_of_nil].
Qed.

Lemma production_resolver_response_witness :
  value (_handle_exception (app_failing_internal true) demo_request
           (ValueError "secret")) = terse_500
  /\ PrintTraceback
       ∉ trace (_handle_exception (app_failing_internal true) demo_request
                   (ValueError "secret")).
Proof.
  destruct (production_resolver_response (app_failing_internal true)
              demo_request (ValueError "secret") eq_refl) as [_ Hquiet].
  split; [reflexivity | exact Hquiet].
Defined.

(** * The registry of exception handlers *)

Section Registry.

Context {V : Type}.
Implicit Types (d : list (string * V)) (k : string) (v : V).

Lemma dict_get_set_eq k v d : dict_get k (dict_set k v d) = Some v.
Proof.
  induction d as [| [k' v'] d IH]; simpl.
  - now rewrite String.eqb_refl.
  - destruct (String.eqb k' k) eqn:Hk; simpl.
    + now rewrite String.eqb_refl.
    + now rewrite Hk.
Qed.

Lemma dict_get_set_ne k k' v d :
  k' <> k -> dict_get k' (dict_set k v d) = dict_get k' d.
Proof.
  intros Hne. apply not_eq_sym in Hne.
  induction d as [| [k0 v0] d IH]; simpl.
  - apply String.eqb_neq in Hne. now rewrite Hne.
  - destruct (String.eqb k0 k) eqn:Hk; simpl.
    + apply String.eqb_eq in Hk. subst k0.
      apply String.eqb_neq in Hne. now rewrite Hne.
    + now rewrite IH.
Qed.

Lemma dict_get_None k d : dict_get k d = None <-> k ∉ d.*1.
Proof.
  induction d as [| [k' v'] d IH]; simpl.
  - split; [intros _; apply not_elem_of_nil | reflexivity].
  - rewrite not_elem_of_cons. destruct (String.eqb k' k) eqn:Hk.
    + apply String.eqb_eq in Hk. subst k'. split; [discriminate |].
      now intros [Hne _].
    + apply String.eqb_neq in Hk. rewrite IH. split; [| tauto].
      intros Hd. split; [congruence | exact Hd].
Qed.

Lemma dict_set_fresh k v d :
  k ∉ d.*1 -> dict_set k v d = d ++ [(k, v)].
Proof.
  induction d as [| [k' v'] d IH]; simpl; [reflexivity |].
  rewrite not_elem_of_cons. intros [Hne Hd].
  apply not_eq_sym, String.eqb_neq in Hne. rewrite Hne.
  now rewrite (IH Hd).
Qed.

Lemma dict_set_present_keys k v d :
  k ∈ d.*1 -> (dict_set k v d).*1 = d.*1.
Proof.
  induction d as [| [k' v'] d IH]; simpl.
  - intros Hin. now apply elem_of_nil in Hin.
  - destruct (String.eqb k' k) eqn:Hk; simpl.
    + apply String.eqb_eq in Hk. now subst k'.
    + apply String.eqb_neq in Hk. rewrite elem_of_cons.
      intros [Heq | Hin]; [congruence |]. f_equal. exact (IH Hin).
Qed.

Lemma dict_set_keys k v d :
  (dict_set k v d).*1
  = if bool_decide (k ∈ d.*1) then d.*1 else d.*1 ++ [k].
Proof.
  case_bool_decide as Hin.
  - now apply dict_set_present_keys.
  - rewrite (dict_set_fresh _ _ _ Hin). now rewrite fmap_app.
Qed.

Lemma dict_set_NoDup k v d : NoDup d.*1 -> NoDup (dict_set k v d).*1.
Proof.
  intros Hnd. rewrite dict_set_keys. case_bool_decide as Hin; [exact Hnd |].
  apply NoDup_app. split; [exact Hnd |]. split.
  - intros x Hx Hx'. apply list_elem_of_singleton in Hx'. now subst x.
  - apply NoDup_singleton.
Qed.

Lemma dict_get_snoc k k' v d :
  dict_get k (d ++ [(k', v)])
  = match dict_get k d with
    | Some w => Some w
    | None => if String.eqb k' k then Some v else None
    end.
Proof.
  induction d as [| [k0 v0] d IH]; simpl; [reflexivity |].
  now destruct (String.eqb k0 k).
Qed.

End Registry.

(** X12: after [set_exception_handler(T, h)] the registry maps [T] to
    [h] and every other type to what it was mapped to before; the
    production flag, the router, the 404 handler and the internal-error
    handler are left alone. *)
Theorem set_exception_handler_lookup
    (self : Catzilla) (T : string) (h : ExceptionHandler) :
  dict_get T (_exception_handlers (set_exception_handler self T h)) = Some h
  /\ (forall T', T' <> T ->
        dict_get T' (_exception_handlers (set_exception_handler self T h))
        = dict_get T' (_exception_handlers self))
  /\ production (set_exception_handler self T h) = production self
  /\ router (set_exception_handler self T h) = router self
  /\ _not_found_handler (set_exception_handler self T h)
     = _not_found_handler self
  /\ _internal_error_handler (set_exception_handler self T h)
     = _internal_error_handler self.
Proof.
  split; [apply dict_get_set_eq |].
  split; [intros T' Hne; now apply dict_get_set_ne |].
  repeat split.
Qed.

(** X13: registering a handler for a type that already has one keeps
    that type's place in the iteration order, a new type goes to the end;
    either way no type ever occurs twice in the registry. *)
Theorem registration_keeps_order
    (self : Catzilla) (T : string) (h : ExceptionHandler) :
  (_exception_handlers (set_exception_handler self T h)).*1
  = (if bool_decide (T ∈ (_exception_handlers self).*1)
     then (_exception_handlers self).*1
     else (_exception_handlers self).*1 ++ [T])
  /\ (NoDup (_exception_handlers self).*1 ->
      NoDup (_exception_handlers (set_exception_handler self T h)).*1).
Proof.
  split; [apply dict_set_keys | apply dict_set_NoDup].
Qed.

Lemma registration_keeps_order_witness :
  (_exception_handlers
     (set_exception_handler app_generic_first "Exception" failing_handler)).*1
  = ["Exception"; "ValueError"]
  /\ NoDup (_exception_handlers
              (set_exception_handler app_generic_first "Exception"
                 failing_handler)).*1.
Proof.
  destruct (registration_keeps_order app_generic_first "Exception"
              failing_handler) as [Hkeys Hnd].
  split; [exact Hkeys |].
  apply Hnd. apply (bool_decide_unpack (NoDup ["Exception"; "ValueError"])).
  reflexivity.
Defined.

Lemma register_all_get (self : Catzilla)
    (regs : list (string * ExceptionHandler)) (T : string) :
  dict_get T (_exception_handlers (register_all self regs))
  = match dict_get T (reverse regs) with
    | Some h => Some h
    | None => dict_get T (_exception_handlers self)
    end.
Proof.
  revert self. induction regs as [| [k h] regs IH]; intros self.
  - reflexivity.
  - change (register_all self ((k, h) :: regs))
      with (register_all (set_exception_handler self k h) regs).
    rewrite IH, reverse_cons, dict_get_snoc.
    destruct (dict_get T (reverse regs)); [reflexivity |].
    destruct (String.eqb k T) eqn:Hk.
    + apply String.eqb_eq in Hk. subst k. apply dict_get_set_eq.
    + apply String.eqb_neq in Hk. apply dict_get_set_ne. congruence.
Qed.

Lemma register_all_NoDup (self : Catzilla)
    (regs : list (string * ExceptionHandler)) :
  NoDup (_exception_handlers self).*1 ->
  NoDup (_exception_handlers (register_all self regs)).*1.
Proof.
  revert self. induction regs as [| [k h] regs IH]; intros self Hnd.
  - exact Hnd.
  - apply (IH (set_exception_handler self k h)). now apply dict_set_NoDup.
Qed.

(** X14: starting from an application without exception handlers, after
    any run of registrations each type is mapped to the handler of its
    last registration, types never registered are absent, and no type
    occurs twice. *)
Theorem last_registration_wins
    (self : Catzilla) (regs : list (string * ExceptionHandler)) :
  _exception_handlers self = [] ->
  (forall T,
      dict_get T (_exception_handlers (register_all self regs))
      = dict_get T (reverse regs))
  /\ NoDup (_exception_handlers (register_all self regs)).*1.
Proof.
  intros Hfresh. split.
  - intros T. rewrite register_all_get, Hfresh.
    now destruct (dict_get T (reverse regs)).
  - apply register_all_NoDup. rewrite Hfresh. constructor.
Qed.

Lemma last_registration_wins_witness :
  dict_get "ValueError"
    (_exception_handlers
       (register_all (base_app false)
          [("ValueError", failing_handler); ("Exception", generic_handler);
           ("ValueError", value_handler)]))
  = Some value_handler
  /\ NoDup (_exception_handlers
              (register_all (base_app false)
                 [("ValueError", failing_handler);
                  ("Exception", generic_handler);
                  ("ValueError", value_handler)])).*1.
Proof.
  destruct (last_registration_wins (base_app false)
              [("ValueError", failing_handler); ("Exception", generic_handler);
               ("ValueError", value_handler)] eq_refl) as [Hget Hnd].
  split; [exact (Hget "ValueError") | exact Hnd].
Defined.

(** The loop looks at the application only through its production
    flag. *)
Lemma loop_depends_on_production
    (self self' : Catzilla) (request : Request) (e : Exception)
    (items : list (string * ExceptionHandler)) :
  production self' = production self ->
  exception_handlers_loop self' request e items
  = exception_handlers_loop self request e items.
Proof.
  intros Hprod. induction items as [| [k h] items IH]; simpl; [reflexivity |].
  destruct (isinstance e k); [| exact IH].
  unfold handler_failed_response, _get_clean_error_response.
  now rewrite Hprod.
Qed.

(** Entries behind the first applicable one are never looked at. *)
Lemma loop_ignores_tail
    (self : Catzilla) (request : Request) (e : Exception)
    (items tail : list (string * ExceptionHandler)) :
  existsb (fun kh => isinstance e kh.1) items = true ->
  exception_handlers_loop self request e (items ++ tail)
  = exception_handlers_loop self request e items.
Proof.
  induction items as [| [k h] items IH]; simpl; [discriminate |].
  destruct (isinstance e k); simpl; [reflexivity | exact IH].
Qed.

(** X15: registering a handler for a type that is not registered yet
    changes nothing for an exception that an already registered handler
    applies to: the earlier registration keeps handling it, also when the
    new type is more specific. *)
Theorem new_registration_cannot_preempt
    (self : Catzilla) (request : Request) (e : Exception)
    (T : string) (h : ExceptionHandler) :
  T ∉ (_exception_handlers self).*1 ->
  existsb (fun kh => isinstance e kh.1) (_exception_handlers self) = true ->
  _handle_exception (set_exception_handler self T h) request e
  = _handle_exception self request e.
Proof.
  intros Hfresh Hmatch. unfold _handle_exception. simpl.
  rewrite (dict_set_fresh _ _ _ Hfresh), (loop_ignores_tail _ _ _ _ _ Hmatch).
  rewrite (loop_depends_on_production self (set_exception_handler self T h))
    by reflexivity.
  pose proof (loop_outcome self request e (_exception_handlers self)) as Hl.
  destruct (exception_handlers_loop self request e (_exception_handlers self))
    as [[r |] t]; simpl in *; [reflexivity |].
  destruct Hl as [_ Hall]. exfalso.
  apply existsb_exists in Hmatch as ([k' h'] & Hin & Hk).
  rewrite Forall_forall in Hall. apply list_elem_of_In in Hin.
  specialize (Hall _ Hin). simpl in *. congruence.
Qed.

Lemma new_registration_cannot_preempt_witness :
  _handle_exception
    (set_exception_handler
       (set_exception_handler (base_app false) "Exception" generic_handler)
       "ValueError" value_handler)
    demo_request (ValueError "bad")
  = _handle_exception
      (set_exception_handler (base_app false) "Exception" generic_handler)
      demo_request (ValueError "bad").
Proof.
  apply new_registration_cannot_preempt.
  - apply (bool_decide_eq_false_1 ("ValueError" ∈ ["Exception"])). reflexivity.
  - reflexivity.
Defined.

(** X16: when no registered handler applies to an exception, a handler
    newly registered for one of the exception's kinds is the one the
    resolver calls from then on, before any internal-error handler. *)
Theorem new_registration_handles_unhandled
    (self : Catzilla) (request : Request) (e : Exception)
    (T : string) (h : ExceptionHandler) :
  Forall (fun kh => isinstance e kh.1 = false) (_exception_handlers self) ->
  isinstance e T = true ->
  _handle_exception (set_exception_handler self T h) request e
  = (outcome_of self request e h, [CallExceptionHandler T request e]).
Proof.
  intros Hall HT.
  assert (Hfresh : T ∉ (_exception_handlers self).*1).
  { intros Hin. apply list_elem_of_fmap in Hin as ([k h'] & -> & Hin).
    rewrite Forall_forall in Hall. specialize (Hall _ Hin). simpl in *.
    congruence. }
  rewrite (handle_exception_first_match (set_exception_handler self T h)
             request e (_exception_handlers self) T h []).
  - reflexivity.
  - simpl. now apply dict_set_fresh.
  - exact HT.
  - exact Hall.
Qed.

Lemma new_registration_handles_unhandled_witness :
  _handle_exception
    (set_exception_handler (app_failing_internal false) "ValueError"
       value_handler)
    demo_request (ValueError "bad")
  = (plain 400 "value",
     [CallExceptionHandler "ValueError" demo_request (ValueError "bad")]).
Proof.
  apply (new_registration_handles_unhandled (app_failing_internal false)
           demo_request (ValueError "bad") "ValueError" value_handler).
  - repeat constructor.
  - reflexivity.
Defined.

(** * Memory configuration and profiling *)

#[local] Set Warnings "-clear-no-such-hyp".

(** X17: after [_init_memory_revolution] the attribute [has_jemalloc]
    is always set and equals [use_jemalloc]; it is true exactly when
    jemalloc was requested, the native layer reports it available,
    [init_memory_system] succeeded and, if profiling was requested, the
    profiling thread could be started; when it is true the optimisation
    flag is set.  The profiling options and the statistics history are
    left alone. *)
Theorem init_memory_flags_agree {Stats T : Type}
    (self : Memory Stats T) (native : Native) :
  let self' := (_init_memory_revolution self native).1 in
  has_jemalloc self' = Some (use_jemalloc self')
  /\ (use_jemalloc self' = true <->
      use_jemalloc self = true
      /\ native_has_jemalloc native = Return true
      /\ (exists u, native_init_memory_system native = Return u)
      /\ (memory_profiling self = true ->
          exists u, native_thread_start native = Return u))
  /\ (use_jemalloc self' = true -> _memory_optimization_active self' = true)
  /\ memory_profiling self' = memory_profiling self
  /\ auto_memory_tuning self' = auto_memory_tuning self
  /\ memory_stats_interval self' = memory_stats_interval self
  /\ _memory_stats_history self' = _memory_stats_history self.
Proof.
  unfold _init_memory_revolution, init_warning.
  destruct (native_has_jemalloc native) as [[|] | e0];
    destruct (use_jemalloc self) eqn:Huse; simpl;
    try destruct (native_init_memory_system native) as [u | e1]; simpl;
    try destruct (memory_profiling self) eqn:Hprof; simpl;
    try destruct (native_thread_start native) as [u' | e2]; simpl;
    split_and!; try reflexivity; try assumption; naive_solver.
Qed.

Lemma slice_last_length {A} (n : nat) (l : list A) :
  length (slice_last n l) = Nat.min n (length l).
Proof. unfold slice_last. rewrite length_drop. lia. Qed.

Lemma slice_last_suffix {A} (n : nat) (l : list A) :
  slice_last n l `suffix_of` l.
Proof. apply suffix_drop. Qed.

Lemma record_stats_length {Stats} (history : list Stats) (stats : Stats) :
  length (record_stats history stats)
  = if (100 <? S (length history))%nat then 50%nat
    else S (length history).
Proof.
  unfold record_stats. rewrite length_app. simpl.
  replace (length history + 1)%nat with (S (length history)) by lia.
  destruct (100 <? S (length history))%nat eqn:Hlen.
  - apply Nat.ltb_lt in Hlen.
    rewrite slice_last_length, length_app.
    change (length [stats]) with 1%nat. lia.
  - rewrite length_app. change (length [stats]) with 1%nat. lia.
Qed.

(** X18: appending to the statistics history keeps the newest entry
    last and drops only the oldest ones: the new history is a suffix of
    the old one extended by the new entry; it has one entry more, unless
    that would be more than 100, in which case exactly the newest 50
    remain. *)
Theorem record_stats_keeps_newest {Stats : Type}
    (history : list Stats) (stats : Stats) :
  last (record_stats history stats) = Some stats
  /\ record_stats history stats `suffix_of` (history ++ [stats])
  /\ length (record_stats history stats)
     = if (100 <? S (length history))%nat then 50%nat
       else S (length history).
Proof.
  split; [| split; [| apply record_stats_length]].
  - unfold record_stats.
    destruct (100 <? length (history ++ [stats]))%nat eqn:Hlen.
    + apply Nat.ltb_lt in Hlen. rewrite length_app in Hlen. simpl in Hlen.
      unfold slice_last. rewrite length_app. simpl.
      rewrite drop_app_le by lia. apply last_snoc.
    + apply last_snoc.
  - unfold record_stats.
    destruct (100 <? length (history ++ [stats]))%nat;
      [apply slice_last_suffix | reflexivity].
Qed.

Section ProfilingLoop.

Context {Stats T : Type}.
Variable elapsed_at_least : T -> T -> Z -> bool.
Variable jemalloc_enabled : Stats -> bool.
Variable set_timestamp : T -> Stats -> Stats.

Local Notation "'step'" :=
  (profile_step elapsed_at_least jemalloc_enabled set_timestamp).
Local Notation "'run'" :=
  (profile_run elapsed_at_least jemalloc_enabled set_timestamp).

Lemma profile_step_bounded (self : Memory Stats T) (now : T) (stats : Stats) :
  (length (_memory_stats_history self) <= 100)%nat ->
  (length (_memory_stats_history (step self now stats)) <= 100)%nat.
Proof.
  intros Hlen. unfold profile_step.
  destruct (elapsed_at_least _ _ _); simpl; [| exact Hlen].
  destruct (jemalloc_enabled stats); [| exact Hlen].
  rewrite record_stats_length.
  destruct (100 <? S (length (_memory_stats_history self)))%nat eqn:H100;
    [lia |].
  apply Nat.ltb_ge in H100. lia.
Qed.

Lemma profile_step_config (self : Memory Stats T) (now : T) (stats : Stats) :
  memory_profiling (step self now stats) = memory_profiling self
  /\ auto_memory_tuning (step self now stats) = auto_memory_tuning self
  /\ memory_stats_interval (step self now stats) = memory_stats_interval self.
Proof.
  unfold profile_step. now destruct (elapsed_at_least _ _ _).
Qed.

Lemma profile_run_bounded (self : Memory Stats T)
    (inputs : list (T * Stats)) :
  (length (_memory_stats_history self) <= 100)%nat ->
  (length (_memory_stats_history (run self inputs)) <= 100)%nat.
Proof.
  revert self. unfold profile_run.
  induction inputs as [| [now stats] inputs IH]; intros self Hlen; simpl.
  - exact Hlen.
  - apply IH. now apply profile_step_bounded.
Qed.

Lemma profile_run_config (self : Memory Stats T)
    (inputs : list (T * Stats)) :
  memory_profiling (run self inputs) = memory_profiling self
  /\ auto_memory_tuning (run self inputs) = auto_memory_tuning self
  /\ memory_stats_interval (run self inputs) = memory_stats_interval self.
Proof.
  revert self. unfold profile_run.
  induction inputs as [| [now stats] inputs IH]; intros self; simpl.
  - easy.
  - destruct (IH (step self now stats)) as (-> & -> & ->).
    apply profile_step_config.
Qed.

End ProfilingLoop.

Lemma init_revolution_preserves {Stats T : Type}
    (self : Memory Stats T) (native : Native) :
  _memory_stats_history (_init_memory_revolution self native).1
  = _memory_stats_history self
  /\ memory_profiling (_init_memory_revolution self native).1
     = memory_profiling self
  /\ auto_memory_tuning (_init_memory_revolution self native).1
     = auto_memory_tuning self
  /\ memory_stats_interval (_init_memory_revolution self native).1
     = memory_stats_interval self.
Proof.
  unfold _init_memory_revolution, init_warning.
  destruct (native_has_jemalloc native) as [[|] | e0];
    destruct (use_jemalloc self); simpl;
    try destruct (native_init_memory_system native) as [u | e1]; simpl;
    try destruct (memory_profiling self) eqn:Hprof; simpl;
    try destruct (native_thread_start native) as [u' | e2]; simpl;
    rewrite ?Hprof; easy.
Qed.

(** X19: from construction on, however long the profiling loop runs and
    whatever the clock and the statistics are, the history never holds
    more than 100 entries; a pass that is not yet due, or whose statistics
    say jemalloc is not enabled, records nothing. *)
Theorem profiling_history_bounded {Stats T : Type}
    (elapsed_at_least : T -> T -> Z -> bool)
    (jemalloc_enabled : Stats -> bool)
    (set_timestamp : T -> Stats -> Stats)
    (use_j profiling tuning : bool) (interval : Z) (zero : T)
    (native : Native) (inputs : list (T * Stats)) :
  let self :=
    profile_run elapsed_at_least jemalloc_enabled set_timestamp
      (_init_memory_revolution
         (init_memory use_j profiling tuning interval zero) native).1
      inputs in
  (length (_memory_stats_history self) <= 100)%nat
  /\ forall now stats,
       elapsed_at_least now (_last_memory_check self)
         (memory_stats_interval self) && jemalloc_enabled stats = false ->
       _memory_stats_history
         (profile_step elapsed_at_least jemalloc_enabled set_timestamp
            self now stats)
       = _memory_stats_history self.
Proof.
  intros self. split.
  - apply profile_run_bounded.
    destruct (init_revolution_preserves
                (init_memory (Stats := Stats) use_j profiling tuning interval
                   zero) native) as (-> & _).
    simpl. lia.
  - intros now stats Hskip. unfold profile_step.
    destruct (elapsed_at_least _ _ _); [| reflexivity].
    simpl in *. now rewrite Hskip.
Qed.

(** X20: [get_memory_profile] answers with an error entry whenever
    profiling is off; otherwise it returns the newest entries of the
    history, in order and at most ten of them, and a [total_checks] that
    is the current length of the history, which after any run of the
    profiling loop is at most 100. *)
Theorem memory_profile_bounds {Stats T : Type}
    (elapsed_at_least : T -> T -> Z -> bool)
    (jemalloc_enabled : Stats -> bool)
    (set_timestamp : T -> Stats -> Stats)
    (use_j profiling tuning : bool) (interval : Z) (zero : T)
    (native : Native) (inputs : list (T * Stats)) :
  let self :=
    profile_run elapsed_at_least jemalloc_enabled set_timestamp
      (_init_memory_revolution
         (init_memory use_j profiling tuning interval zero) native).1
      inputs in
  if profiling then
    exists recent total,
      get_memory_profile self
      = Profile true recent tuning interval total
      /\ recent `suffix_of` _memory_stats_history self
      /\ length recent = Nat.min 10 total
      /\ total = length (_memory_stats_history self)
      /\ (total <= 100)%nat
  else get_memory_profile self = ProfileError "Memory profiling not enabled".
Proof.
  intros self. unfold get_memory_profile.
  destruct (init_revolution_preserves
              (init_memory (Stats := Stats) use_j profiling tuning interval
                 zero) native) as (Hh0 & Hp0 & Ha0 & Hi0).
  destruct (profile_run_config elapsed_at_least jemalloc_enabled set_timestamp
              (_init_memory_revolution
                 (init_memory use_j profiling tuning interval zero) native).1
              inputs) as (Hp & Ha & Hi).
  rewrite Hp0 in Hp. rewrite Ha0 in Ha. rewrite Hi0 in Hi.
  cbn in Hp, Ha, Hi. fold self in Hp, Ha, Hi. rewrite Hp, Ha, Hi.
  destruct profiling; [| reflexivity].
  eexists _, _. split; [reflexivity |].
  split; [apply slice_last_suffix |].
  split; [apply slice_last_length |].
  split; [reflexivity |].
  apply profile_run_bounded. rewrite Hh0. simpl. lia.
Qed.

(** * The per-route middleware of the example application *)

Lemma startswith_iff (p s : string) :
  startswith p s = true <-> exists t, s = p +:+ t.
Proof.
  revert s. induction p as [| a p IH]; intros s; simpl.
  - split; [intros _; now exists s | reflexivity].
  - destruct s as [| b s].
    + split; [discriminate |].
      intros [t Ht]. change (String a p +:+ t) with (String a (p +:+ t)) in Ht.
      discriminate.
    + rewrite andb_true_iff, Ascii.eqb_eq, IH. split.
      * intros [-> [t ->]]. now exists t.
      * intros [t Ht].
        change (String a p +:+ t) with (String a (p +:+ t)) in Ht.
        injection Ht as -> ->. split; [reflexivity | now exists t].
Qed.

Lemma str_drop_prefix (p t : string) :
  str_drop (String.length p) (p +:+ t) = t.
Proof.
  induction p as [| a p IH]; [now destruct t |].
  change (str_drop (String.length p) (p +:+ t) = t). exact IH.
Qed.

(** What [auth_middleware] does with a well-formed bearer token. *)
Lemma auth_middleware_accepts {T : Type} (now : T) (request : MwRequest T)
    (token : string) :
  auth_header_of request = Some ("Bearer " +:+ token) ->
  token <> "invalid" ->
  auth_middleware now request
  = (None,
     context_set request "user"
       (CDict [("id", CStr "user123");
               ("name", CStr "John Doe");
               ("token", CStr token);
               ("authenticated_at", CTime now)])).
Proof.
  intros Hh Hne. unfold auth_middleware. rewrite Hh.
  change (Py.truthy_str (Some ("Bearer " +:+ token))) with true.
  assert (Hp : startswith "Bearer " ("Bearer " +:+ token) = true)
    by (apply startswith_iff; now exists token).
  rewrite Hp. change 7%nat with (String.length "Bearer ").
  rewrite str_drop_prefix.
  apply String.eqb_neq in Hne. now rewrite Hne.
Qed.

(** X21: [auth_middleware] lets a request continue exactly when the
    authorization header it finds is ["Bearer "] followed by a token
    other than ["invalid"]; it then stores that token, with the fixed user
    id and name, under the context key ["user"] and leaves every other
    context key as it was.  In every other case it answers 401 and does
    not touch the request. *)
Theorem auth_middleware_accepts_iff {T : Type}
    (now : T) (request : MwRequest T) :
  ((auth_middleware now request).1 = None <->
   exists token,
     auth_header_of request = Some ("Bearer " +:+ token)
     /\ token <> "invalid")
  /\ (forall token,
        auth_header_of request = Some ("Bearer " +:+ token) ->
        token <> "invalid" ->
        context_get (auth_middleware now request).2 "user"
        = Some (CDict [("id", CStr "user123");
                       ("name", CStr "John Doe");
                       ("token", CStr token);
                       ("authenticated_at", CTime now)])
        /\ forall key, key <> "user" ->
             context_get (auth_middleware now request).2 key
             = context_get request key)
  /\ (forall r,
        (auth_middleware now request).1 = Some r ->
        status_code r = 401%Z
        /\ (auth_middleware now request).2 = request).
Proof.
  pose proof (auth_middleware_accepts now request) as Haccept.
  split; [split |]; [| | split].
  - unfold auth_middleware.
    destruct (auth_header_of request) as [header |] eqn:Hh;
      [| simpl; discriminate].
    destruct (Py.truthy_str (Some header)); [| simpl; discriminate].
    destruct (startswith "Bearer " header) eqn:Hp; [| simpl; discriminate].
    apply startswith_iff in Hp as [token ->].
    change 7%nat with (String.length "Bearer ").
    rewrite str_drop_prefix.
    destruct (String.eqb token "invalid") eqn:Ht; [simpl; discriminate |].
    intros _. exists token. split; [reflexivity |].
    now apply String.eqb_neq.
  - intros (token & Hh & Hne). now rewrite (Haccept token Hh Hne).
  - intros token Hh Hne. rewrite (Haccept token Hh Hne).
    unfold context_get, context_set. simpl. split.
    + apply lookup_insert_eq.
    + intros key Hkey. now rewrite lookup_insert_ne.
  - intros r. unfold auth_middleware.
    destruct (auth_header_of request) as [header |];
      [| simpl; intros [= <-]; now split].
    destruct (Py.truthy_str (Some header));
      [| simpl; intros [= <-]; now split].
    destruct (startswith "Bearer " header);
      [| simpl; intros [= <-]; now split].
    destruct (String.eqb (str_drop 7 header) "invalid"); simpl;
      [intros [= <-]; now split | discriminate].
Qed.

(** X22: after [auth_middleware] has accepted a request,
    [admin_middleware] lets it continue exactly when the token is
    ["admin-token"] and answers 403 otherwise; on a request that carries
    no ["user"] in its context it answers 401. *)
Theorem admin_after_auth_requires_admin_token {T : Type}
    (time_truthy : T -> bool) (now : T) (request : MwRequest T)
    (token : string) :
  auth_header_of request = Some ("Bearer " +:+ token) ->
  token <> "invalid" ->
  (auth_middleware now request).1 = None
  /\ (admin_middleware time_truthy (auth_middleware now request).2
      = Return None <-> token = "admin-token")
  /\ (token <> "admin-token" ->
      exists r,
        admin_middleware time_truthy (auth_middleware now request).2
        = Return (Some r)
        /\ status_code r = 403%Z)
  /\ (context_get request "user" = None ->
      exists r,
        admin_middleware time_truthy request = Return (Some r)
        /\ status_code r = 401%Z).
Proof.
  intros Hh Hne.
  rewrite (auth_middleware_accepts now request token Hh Hne).
  split; [reflexivity |].
  unfold admin_middleware.
  assert (Huser : context_get
                    (context_set request "user"
                       (CDict [("id", CStr "user123");
                               ("name", CStr "John Doe");
                               ("token", CStr token);
                               ("authenticated_at", CTime now)])) "user"
                  = Some (CDict [("id", CStr "user123");
                                 ("name", CStr "John Doe");
                                 ("token", CStr token);
                                 ("authenticated_at", CTime now)]))
    by apply lookup_insert_eq.
  cbn [snd]. rewrite Huser. simpl.
  split; [| split].
  - destruct (String.eqb token "admin-token") eqn:Ht; simpl.
    + apply String.eqb_eq in Ht. easy.
    + apply String.eqb_neq in Ht. split; [discriminate | congruence].
  - intros Hna. apply String.eqb_neq in Hna. rewrite Hna. simpl.
    eexists. split; reflexivity.
  - intros ->. eexists. split; reflexivity.
Qed.

Lemma admin_after_auth_requires_admin_token_witness :
  (auth_middleware 0%Z admin_request).1 = None
  /\ admin_middleware (fun t => negb (Z.eqb t 0))
       (auth_middleware 0%Z admin_request).2 = Return None.
Proof.
  destruct (admin_after_auth_requires_admin_token
              (fun t => negb (Z.eqb t 0)) 0%Z admin_request "admin-token")
    as (Hauth & Hadmin & _).
  - reflexivity.
  - discriminate.
  - split; [exact Hauth | now apply Hadmin].
Defined.

(** X23: [rate_limit_middleware] never stops a request; it records the
    client address from [x-forwarded-for], or [127.0.0.1] when that
    header is missing, with 100 remaining requests under the context key
    ["rate_limit"], and leaves every other context key and the headers as
    they were. *)
Theorem rate_limit_never_blocks {T : Type}
    (reset_time : T) (request : MwRequest T) :
  (rate_limit_middleware reset_time request).1 = None
  /\ context_get (rate_limit_middleware reset_time request).2 "rate_limit"
     = Some (CDict [("ip",
                     CStr (default "127.0.0.1"
                             (headers_get request "x-forwarded-for")));
                    ("remaining", CInt 100);
                    ("reset_time", CTime reset_time)])
  /\ (forall key, key <> "rate_limit" ->
        context_get (rate_limit_middleware reset_time request).2 key
        = context_get request key)
  /\ headers_get (rate_limit_middleware reset_time request).2
     = headers_get request.
Proof.
  unfold rate_limit_middleware, context_get, context_set. simpl.
  split; [reflexivity |]. split; [apply lookup_insert_eq |].
  split; [| reflexivity].
  intros key Hkey. now rewrite lookup_insert_ne.
Qed.

(** X24: [admin_middleware] raises [AttributeError] instead of
    answering when the context key ["user"] holds a truthy value that is
    not a dictionary. *)
Theorem admin_middleware_raises_on_non_dict_user {T : Type}
    (time_truthy : T -> bool) (request : MwRequest T) (user : CtxVal T) :
  context_get request "user" = Some user ->
  ctx_truthy time_truthy user = true ->
  (forall d, user <> CDict d) ->
  admin_middleware time_truthy request
  = Raise (AttributeError ("'" +:+ ctx_type_name user
                           +:+ "' object has no attribute 'get'")).
Proof.
  intros Huser Htruthy Hnd. unfold admin_middleware.
  rewrite Huser, Htruthy. simpl.
  destruct user; try reflexivity. now destruct (Hnd d).
Qed.

Lemma admin_middleware_raises_on_non_dict_user_witness :
  admin_middleware (fun t => negb (Z.eqb t 0))
    (context_set admin_request "user" (CStr "root"))
  = Raise (AttributeError "'str' object has no attribute 'get'").
Proof.
  apply (admin_middleware_raises_on_non_dict_user
           (fun t => negb (Z.eqb t 0))
           (context_set admin_request "user" (CStr "root")) (CStr "root")).
  - reflexivity.
  - reflexivity.
  - discriminate.
Defined.

Lemma auth_middleware_accepts_iff_witness :
  (auth_middleware 0%Z admin_request).1 = None
  /\ context_get (auth_middleware 0%Z admin_request).2 "user"
     = Some (CDict [("id", CStr "user123");
                    ("name", CStr "John Doe");
                    ("token", CStr "admin-token");
                    ("authenticated_at", CTime 0%Z)]).
Proof.
  destruct (auth_middleware_accepts_iff 0%Z admin_request) as (Hacc & Hctx & _).
  split.
  - apply Hacc. exists "admin-token". split; [reflexivity | discriminate].
  - apply (Hctx "admin-token"); [reflexivity | discriminate].
Defined.

Lemma rate_limit_never_blocks_witness :
  context_get
    (rate_limit_middleware 3600%Z (auth_middleware 0%Z admin_request).2).2
    "user"
  = context_get (auth_middleware 0%Z admin_request).2 "user".
Proof.
  destruct (rate_limit_never_blocks 3600%Z (auth_middleware 0%Z admin_request).2)
    as (_ & _ & Hkeep & _).
  apply Hkeep. discriminate.
Defined.

Lemma set_exception_handler_lookup_witness :
  dict_get "Exception"
    (_exception_handlers
       (set_exception_handler app_generic_first "ValueError" failing_handler))
  = dict_get "Exception" (_exception_handlers app_generic_first).
Proof.
  destruct (set_exception_handler_lookup app_generic_first "ValueError"
              failing_handler) as (_ & Hother & _).
  apply Hother. discriminate.
Defined.

Lemma init_memory_flags_agree_witness :
  use_jemalloc (_init_memory_revolution sample_memory native_ok).1 = true
  /\ has_jemalloc (_init_memory_revolution sample_memory native_ok).1
     = Some true.
Proof.
  destruct (init_memory_flags_agree sample_memory native_ok)
    as (Hagree & Hiff & _).
  assert (Huse : use_jemalloc (_init_memory_revolution sample_memory native_ok).1
                 = true).
  { apply Hiff. split; [reflexivity |]. split; [reflexivity |].
    split; [now exists tt | intros _; now exists tt]. }
  split; [exact Huse |]. rewrite Hagree. now rewrite Huse.
Defined.

Lemma profiling_history_bounded_witness :
  _memory_stats_history
    (profile_step elapsed_seconds id (fun _ s => s)
       (profile_run elapsed_seconds id (fun _ s => s)
          (_init_memory_revolution sample_memory native_ok).1
          [(100%Z, true); (200%Z, true)])
       230%Z true)
  = _memory_stats_history
      (profile_run elapsed_seconds id (fun _ s => s)
         (_init_memory_revolution sample_memory native_ok).1
         [(100%Z, true); (200%Z, true)]).
Proof.
  destruct (profiling_history_bounded elapsed_seconds id (fun _ s => s)
              true true true 60 0%Z native_ok [(100%Z, true); (200%Z, true)])
    as [_ Hskip].
  apply Hskip. reflexivity.
Defined.

(** * Rejected return values and content types *)

(** X25: a handler value that is neither a [Response], a [dict] nor a
    [str] is turned into a [TypeError] whose message names the value's
    type; it is an [Exception] like any raised one, so a handler
    registered for [TypeError] or [Exception] receives it, and the
    resolver's response for it is the one response sent. *)
Theorem unsupported_return_is_resolved
    (self : Catzilla) (client : nat) (method path raw_body : string)
    (capsule : Capsule) (route : Route) (pp : gmap string string)
    (am : option (list string)) (v : Returned) :
  let request := dispatched_request client method path raw_body capsule pp in
  let exc :=
    TypeError ("Handler returned unsupported type " +:+ type_repr_of v
               +:+ ". Must return Response, dict, or str.") in
  resolve self method path = (Some route, pp, am) ->
  gate_rejects (capsule_content_type capsule) = false ->
  handler route request = Return v ->
  (v = RetNone \/ exists t, v = RetOther t) ->
  trace (_handle_request self client method path raw_body capsule)
  = CallHandler request
      :: trace (_handle_exception self request exc)
      ++ [Send client (value (_handle_exception self request exc))]
  /\ isinstance exc "TypeError" = true
  /\ isinstance exc "Exception" = true.
Proof.
  intros request exc Hm Hgate Hv Hbad.
  split; [| split; reflexivity].
  assert (Hnorm : normalize v = Raise exc)
    by (destruct Hbad as [-> | [t ->]]; reflexivity).
  rewrite (handle_request_matched _ _ _ _ _ _ _ _ _ Hm), trace_bind.
  fold request.
  assert (Hblock : matched_try_block route request client
                   = (Raise exc, [CallHandler request])).
  { unfold matched_try_block, req_content_type. simpl.
    rewrite Hgate. unfold call_route_handler. rewrite Hv, Hnorm.
    now destruct (capsule_content_type capsule). }
  rewrite Hblock. simpl. now rewrite trace_bind.
Qed.

Lemma unsupported_return_is_resolved_witness :
  trace (_handle_request app_type_error_handler 7 "GET" "/raw" ""
           (mkCapsule None))
  = [CallHandler (dispatched_request 7 "GET" "/raw" "" (mkCapsule None) ∅);
     CallExceptionHandler "TypeError"
       (dispatched_request 7 "GET" "/raw" "" (mkCapsule None) ∅)
       (TypeError ("Handler returned unsupported type <class 'bytes'>. "
                   +:+ "Must return Response, dict, or str."));
     Send 7 (plain 400 "value")].
Proof.
  destruct (unsupported_return_is_resolved app_type_error_handler 7 "GET"
              "/raw" "" (mkCapsule None) bytes_route ∅ None
              (RetOther "<class 'bytes'>") eq_refl eq_refl eq_refl)
    as [Htrace _].
  - right. now exists "<class 'bytes'>".
  - exact Htrace.
Defined.

Lemma allowed_type_with_parameter_not_allowed (ct suffix : string) :
  ct ∈ ALLOWED_CONTENT_TYPES ->
  suffix <> "" ->
  ct +:+ suffix ∉ ALLOWED_CONTENT_TYPES.
Proof.
  intros Hct Hne Hin. unfold ALLOWED_CONTENT_TYPES in *.
  repeat (apply elem_of_cons in Hct as [-> | Hct]);
    [| | | | now apply elem_of_nil in Hct];
    repeat (apply elem_of_cons in Hin as [Hin | Hin]);
    try (now apply elem_of_nil in Hin);
    vm_compute in Hin; congruence.
Qed.

(** X26: the allow-list is matched against the whole content type: an
    allowed type followed by anything, such as a [charset] or [boundary]
    parameter, is answered with 415 and the route handler is not
    called. *)
Theorem content_type_with_parameter_rejected
    (self : Catzilla) (client : nat) (method path raw_body : string)
    (route : Route) (pp : gmap string string) (am : option (list string))
    (ct suffix : string) :
  resolve self method path = (Some route, pp, am) ->
  ct ∈ ALLOWED_CONTENT_TYPES ->
  suffix <> "" ->
  trace (_handle_request self client method path raw_body
           (mkCapsule (Some (ct +:+ suffix))))
  = [Send client (unsupported_media_type (ct +:+ suffix))].
Proof.
  intros Hm Hct Hne.
  rewrite (handle_request_matched _ _ _ _ _ _ _ _ _ Hm), trace_bind.
  assert (Hgate : gate_rejects (Some (ct +:+ suffix)) = true).
  { unfold gate_rejects, Py.truthy_str, Py.in_list.
    rewrite (bool_decide_eq_false_2 _
               (allowed_type_with_parameter_not_allowed _ _ Hct Hne)).
    assert (Hnonempty : ct +:+ suffix <> "").
    { intros Hempty. destruct ct; [now destruct suffix |].
      change (String a ct +:+ suffix) with (String a (ct +:+ suffix)) in Hempty.
      discriminate. }
    apply String.eqb_neq in Hnonempty. now rewrite Hnonempty. }
  unfold matched_try_block, req_content_type, dispatched_request,
    set_path_params, new_request.
  cbn [request_capsule capsule_content_type]. now rewrite Hgate.
Qed.

Lemma content_type_with_parameter_rejected_witness :
  trace (_handle_request (base_app false) 7 "GET" "/hello" ""
           (mkCapsule (Some "application/json; charset=utf-8")))
  = [Send 7 (unsupported_media_type "application/json; charset=utf-8")].
Proof.
  apply (content_type_with_parameter_rejected (base_app false) 7 "GET"
           "/hello" "" hello_route ∅ None "application/json"
           "; charset=utf-8").
  - reflexivity.
  - apply (bool_decide_unpack ("application/json" ∈ ALLOWED_CONTENT_TYPES)).
    reflexivity.
  - discriminate.
Defined.

(** * The dispatcher with callbacks that return anything *)

Section DynResolver.

Variable self : Dyn.Catzilla.
Variable request : Request.
Variable e : Exception.

Lemma dyn_loop_trace_quiet items :
  sent (trace (Dyn.exception_handlers_loop self request e items)) = []
  /\ handler_calls (trace (Dyn.exception_handlers_loop self request e items))
     = 0%nat.
Proof.
  induction items as [| [k h] items IH]; simpl; [easy |].
  destruct (isinstance e k); [| exact IH].
  now destruct (h request e).
Qed.

(** The resolver itself never sends and never calls the route handler. *)
Lemma dyn_handle_exception_quiet :
  sent (trace (Dyn._handle_exception self request e)) = []
  /\ handler_calls (trace (Dyn._handle_exception self request e)) = 0%nat.
Proof.
  unfold Dyn._handle_exception. rewrite trace_bind.
  destruct (dyn_loop_trace_quiet (Dyn._exception_handlers self)) as [Hs Hh].
  unfold sent, handler_calls in *.
  rewrite omap_app, List.filter_app, length_app, Hs, Hh.
  destruct (value (Dyn.exception_handlers_loop self request e
                     (Dyn._exception_handlers self))); [easy |].
  destruct (Dyn._internal_error_handler self) as [h |]; simpl.
  - now destruct (h request e); simpl; destruct (Dyn.production self).
  - now destruct (Dyn.production self).
Qed.



End DynResolver.

Section DynDispatcher.

Variable self : Dyn.Catzilla.
Variable client : nat.
Variables method path raw_body : string.
Variable capsule : Capsule.

Local Notation "'the_request'" :=
  (dispatched_request client method path raw_body capsule).
Local Notation "'the_run'" :=
  (Dyn._handle_request self client method path raw_body capsule).

Local Notation "'dyn_except_clause' request" :=
  (Dyn.except_clause self request client) (at level 10).

Lemma dyn_handle_request_matched route pp am :
  Dyn.resolve self method path = (Some route, pp, am) ->
  the_run
  = io_bind (matched_try_block route (the_request pp) client)
      (dyn_except_clause (the_request pp)).
Proof.
  unfold Dyn.resolve, Dyn._handle_request. intros ->. reflexivity.
Qed.

Lemma dyn_handle_request_unmatched pp am :
  Dyn.resolve self method path = (None, pp, am) ->
  the_run
  = match am with
    | Some (m :: ms) =>
        io_bind
          (send (method_not_allowed (Dyn.flags self) method path (m :: ms))
             client)
          (fun _ => io_ret (Return tt))
    | _ =>
        io_bind (Dyn.not_found_branch self (the_request pp) client method path)
          (fun _ => io_ret (Return tt))
    end.
Proof.
  unfold Dyn.resolve, Dyn._handle_request. intros ->.
  now destruct am as [[| m ms] |].
Qed.

(** The [except] clause sends the resolver's response, or lets the
    [AttributeError] of [send] escape without sending anything. *)
Lemma dyn_except_clause_outcome request e :
  handler_calls (trace (dyn_except_clause request (Raise e))) = 0%nat
  /\ match value (Dyn._handle_exception self request e) with
     | HandedResponse r =>
         value (dyn_except_clause request (Raise e)) = Return tt
         /\ sent (trace (dyn_except_clause request (Raise e))) = [(client, r)]
     | HandedOther type_name =>
         value (dyn_except_clause request (Raise e))
         = Raise (Dyn.no_send_attribute type_name)
         /\ sent (trace (dyn_except_clause request (Raise e))) = []
     end.
Proof.
  unfold Dyn.except_clause. rewrite trace_bind, value_of_bind.
  destruct (dyn_handle_exception_quiet self request e) as [Hs Hh].
  unfold sent, handler_calls in *.
  rewrite omap_app, List.filter_app, length_app, Hs, Hh.
  now destruct (value (Dyn._handle_exception self request e)).
Qed.

(** Past the gate: one handler call, then one response or the escaping
    [AttributeError]. *)
Lemma dyn_after_gate route request :
  let run :=
    io_bind (call_route_handler route request client)
      (dyn_except_clause request) in
  handler_calls (trace run) = 1%nat
  /\ hd_error (trace run) = Some (CallHandler request)
  /\ match value run with
     | Return _ => exists r, sent (trace run) = [(client, r)]
     | Raise err =>
         sent (trace run) = []
         /\ exists e type_name,
              value (call_route_handler route request client) = Raise e
              /\ value (Dyn._handle_exception self request e)
                 = HandedOther type_name
              /\ err = Dyn.no_send_attribute type_name
     end.
Proof.
  intros run. subst run. rewrite trace_bind, value_of_bind.
  assert (Hexc : forall e,
            value (call_route_handler route request client) = Raise e ->
            trace (call_route_handler route request client)
            = [CallHandler request] ->
            handler_calls
              ([CallHandler request]
               ++ trace (dyn_except_clause request (Raise e))) = 1%nat
            /\ hd_error ([CallHandler request]
                         ++ trace (dyn_except_clause request (Raise e)))
               = Some (CallHandler request)
            /\ match value (dyn_except_clause request (Raise e)) with
               | Return _ =>
                   exists r,
                     sent ([CallHandler request]
                           ++ trace (dyn_except_clause request (Raise e)))
                     = [(client, r)]
               | Raise err =>
                   sent ([CallHandler request]
                         ++ trace (dyn_except_clause request (Raise e))) = []
                   /\ exists e' type_name,
                        value (call_route_handler route request client)
                        = Raise e'
                        /\ value (Dyn._handle_exception self request e')
                           = HandedOther type_name
                        /\ err = Dyn.no_send_attribute type_name
               end).
  { intros e Hv _.
    destruct (dyn_except_clause_outcome request e) as [Hh Hout].
    split; [unfold handler_calls in *;
            now rewrite List.filter_app, length_app, Hh |].
    split; [reflexivity |].
    destruct (value (Dyn._handle_exception self request e)) as [r | t] eqn:Hobj;
      destruct Hout as [-> Hs]; unfold sent in *; rewrite omap_app, Hs.
    - now exists r.
    - split; [reflexivity |]. now exists e, t. }
  unfold call_route_handler in *.
  destruct (handler route request) as [v | e]; simpl in *.
  - destruct (normalize v) as [r | e]; simpl in *.
    + split; [reflexivity |]. split; [reflexivity |]. now exists r.
    + now apply Hexc.
  - now apply Hexc.
Qed.

End DynDispatcher.

(** ** Both embeddings agree on callbacks that keep to their annotations *)

Lemma dyn_loop_lift (self : Catzilla) (request : Request) (e : Exception)
    (items : list (string * ExceptionHandler)) :
  Dyn.exception_handlers_loop (lift self) request e
    (map (fun kh => (kh.1, fun request e => lift_result (kh.2 request e)))
       items)
  = (option_map HandedResponse
       (value (exception_handlers_loop self request e items)),
     trace (exception_handlers_loop self request e items)).
Proof.
  induction items as [| [k h] items IH]; simpl; [reflexivity |].
  destruct (isinstance e k); [| exact IH].
  now destruct (h request e).
Qed.

Lemma dyn_handle_exception_lift (self : Catzilla) (request : Request)
    (e : Exception) :
  Dyn._handle_exception (lift self) request e
  = (HandedResponse (value (_handle_exception self request e)),
     trace (_handle_exception self request e)).
Proof.
  unfold Dyn._handle_exception, _handle_exception.
  change (Dyn._exception_handlers (lift self))
    with (map (fun kh => (kh.1, fun request e => lift_result (kh.2 request e)))
            (_exception_handlers self)).
  rewrite dyn_loop_lift.
  destruct (exception_handlers_loop self request e (_exception_handlers self))
    as [[r |] t]; simpl; [reflexivity |].
  destruct (_internal_error_handler self) as [h |]; simpl.
  - now destruct (h request e); simpl; destruct (production self).
  - now destruct (production self).
Qed.

(** On an application whose error callbacks return responses, the
    dispatcher with arbitrary callbacks completes without an exception
    and does exactly what the dispatcher with typed callbacks does. *)
Lemma typed_run_is_dyn_run (self : Catzilla) (client : nat)
    (method path raw_body : string) (capsule : Capsule) :
  Dyn._handle_request (lift self) client method path raw_body capsule
  = (Return tt, trace (_handle_request self client method path raw_body capsule)).
Proof.
  unfold Dyn._handle_request, _handle_request.
  change (Dyn.router (lift self)) with (router self).
  destruct (match_ (router self) method (base_path_of path))
    as [[[route |] pp] am].
  - destruct (matched_try_block route _ client) as [[u | e] t]; simpl.
    + now rewrite !app_nil_r.
    + rewrite dyn_handle_exception_lift.
      now destruct (_handle_exception self _ e).
  - destruct am as [[| m ms] |]; try reflexivity;
      unfold Dyn.not_found_branch, not_found_branch; simpl;
      (destruct (_not_found_handler self) as [h |]; simpl; [| reflexivity]);
      now destruct (h _).
Qed.

(** ** One response per request *)




(** ** The content-type gate *)

(** A content type passes the gate exactly when it is absent, empty or
    on the allow-list. *)
Lemma gate_rejects_iff (content_type : option string) :
  gate_rejects content_type = true
  <-> exists ct,
        content_type = Some ct /\ ct <> "" /\ ct ∉ ALLOWED_CONTENT_TYPES.
Proof.
  unfold gate_rejects, Py.truthy_str, Py.in_list.
  destruct content_type as [ct |].
  - rewrite andb_true_iff, !negb_true_iff, String.eqb_neq,
      bool_decide_eq_false.
    split; [intros [Hne Hout]; now exists ct |].
    now intros (ct' & [= <-] & Hne & Hout).
  - split; [discriminate | now intros (ct & Hct & _)].
Qed.

(** C6, as the specification words it, fails for the empty content type:
    [""] is outside the allow-list, yet a matched request that carries it
    is not answered with 415; its route handler is called and the
    handler's response is sent. *)
Lemma empty_content_type_counterexample :
  ~ ("" ∈ ALLOWED_CONTENT_TYPES)
  /\ Dyn.resolve (lift (base_app true)) "GET" "/hello"
     = (Some hello_route, ∅, None)
  /\ trace (Dyn._handle_request (lift (base_app true)) 7 "GET" "/hello" ""
              (mkCapsule (Some "")))
     = [CallHandler (dispatched_request 7 "GET" "/hello" ""
                       (mkCapsule (Some "")) ∅);
        Send 7 (HTMLResponse "hi")]
  /\ ~ sent_statuses
         (trace (Dyn._handle_request (lift (base_app true)) 7 "GET" "/hello"
                   "" (mkCapsule (Some "")))) = [415%Z].
Proof.
  split; [apply (bool_decide_eq_false_1 ("" ∈ ALLOWED_CONTENT_TYPES));
          reflexivity |].
  split; [reflexivity |]. split; [reflexivity |].
  intros H. vm_compute in H. discriminate H.
Qed.

(** C6 (amended): on a matched route, a non-empty content type outside
    the allow-list gets the 415 response as the only thing that happens,
    so the route handler is never called; a request without a content
    type, with an empty one, or with one on the allow-list passes the
    gate: its route handler is called, once, before anything else. *)
Theorem content_type_gate_exact
    (self : Dyn.Catzilla) (client : nat) (method path raw_body : string)
    (capsule : Capsule) (route : Route) (pp : gmap string string)
    (am : option (list string)) :
  Dyn.resolve self method path = (Some route, pp, am) ->
  (forall ct,
      capsule_content_type capsule = Some ct ->
      ct <> "" ->
      ct ∉ ALLOWED_CONTENT_TYPES ->
      Dyn._handle_request self client method path raw_body capsule
      = (Return tt, [Send client (unsupported_media_type ct)])
      /\ status_code (unsupported_media_type ct) = 415%Z
      /\ handler_calls
           (trace (Dyn._handle_request self client method path raw_body
                     capsule)) = 0%nat)
  /\ (capsule_content_type capsule = None
      \/ capsule_content_type capsule = Some ""
      \/ (exists ct,
             capsule_content_type capsule = Some ct
             /\ ct ∈ ALLOWED_CONTENT_TYPES) ->
      handler_calls
        (trace (Dyn._handle_request self client method path raw_body capsule))
      = 1%nat
      /\ hd_error
           (trace (Dyn._handle_request self client method path raw_body
                     capsule))
         = Some (CallHandler
                   (dispatched_request client method path raw_body capsule
                      pp))).
Proof.
  intros Hm. rewrite (dyn_handle_request_matched _ _ _ _ _ _ _ _ _ Hm).
  set (request := dispatched_request _ _ _ _ _ _).
  assert (Hct : req_content_type request = capsule_content_type capsule)
    by reflexivity.
  unfold matched_try_block. rewrite Hct.
  split.
  - intros ct Hcap Hne Hout.
    assert (Hrej : gate_rejects (capsule_content_type capsule) = true)
      by (apply gate_rejects_iff; now exists ct).
    rewrite Hcap in *. rewrite Hrej. easy.
  - intros Hpass.
    assert (Hrej : gate_rejects (capsule_content_type capsule) = false).
    { apply not_true_is_false. intros Hrej.
      apply gate_rejects_iff in Hrej as (ct & Hcap & Hne & Hout).
      destruct Hpass as [Hnone | [Hempty | (ct' & Hcap' & Hin)]]; congruence. }
    destruct (dyn_after_gate self client route request) as (Hcalls & Hhd & _).
    destruct (capsule_content_type capsule) as [ct |];
      [rewrite Hrej |]; now split.
Qed.

Lemma content_type_gate_exact_witness :
  Dyn._handle_request (lift (base_app true)) 7 "GET" "/hello" ""
    (mkCapsule (Some "text/xml"))
  = (Return tt, [Send 7 (unsupported_media_type "text/xml")])
  /\ handler_calls
       (trace (Dyn._handle_request (lift (base_app true)) 7 "GET" "/hello" ""
                 (mkCapsule (Some "")))) = 1%nat
  /\ handler_calls
       (trace (Dyn._handle_request (lift (base_app true)) 7 "GET" "/hello" ""
                 (mkCapsule None))) = 1%nat.
Proof.
  split; [| split].
  - destruct (content_type_gate_exact (lift (base_app true)) 7 "GET" "/hello"
                "" (mkCapsule (Some "text/xml")) hello_route ∅ None eq_refl)
      as [Hgate _].
    apply (Hgate "text/xml" eq_refl).
    + discriminate.
    + apply (bool_decide_eq_false_1 ("text/xml" ∈ ALLOWED_CONTENT_TYPES)).
      reflexivity.
  - destruct (content_type_gate_exact (lift (base_app true)) 7 "GET" "/hello"
                "" (mkCapsule (Some "")) hello_route ∅ None eq_refl)
      as [_ Hpass].
    apply Hpass. right. left. reflexivity.
  - destruct (content_type_gate_exact (lift (base_app true)) 7 "GET" "/hello"
                "" (mkCapsule None) hello_route ∅ None eq_refl)
      as [_ Hpass].
    apply Hpass. left. reflexivity.
Defined.

(** ** Requests without a route *)

(** C10, as the specification words it, fails: in debug mode a request
    for an unregistered path, with a content type outside the allow-list
    and a registered 404 handler that raises, is answered with 500,
    neither 404 nor 405; and a 404 handler may itself answer 415. *)
Lemma unmatched_status_counterexample :
  Dyn.resolve (lift (app_failing_not_found false)) "GET" "/missing"
  = (None, ∅, None)
  /\ gate_rejects (Some "text/xml") = true
  /\ sent_statuses
       (trace (Dyn._handle_request (lift (app_failing_not_found false)) 7
                 "GET" "/missing" "" (mkCapsule (Some "text/xml"))))
     = [500%Z]
  /\ ~ (sent_statuses
          (trace (Dyn._handle_request (lift (app_failing_not_found false)) 7
                    "GET" "/missing" "" (mkCapsule (Some "text/xml"))))
        = [404%Z]
        \/ sent_statuses
             (trace (Dyn._handle_request (lift (app_failing_not_found false))
                       7 "GET" "/missing" "" (mkCapsule (Some "text/xml"))))
           = [405%Z])
  /\ sent_statuses
       (trace (Dyn._handle_request app_not_found_answers_415 7 "GET"
                 "/missing" "" (mkCapsule (Some "text/xml"))))
     = [415%Z].
Proof.
  split; [reflexivity |]. split; [reflexivity |]. split; [reflexivity |].
  split; [| reflexivity].
  intros [H | H]; vm_compute in H; discriminate H.
Qed.

(** C10 (amended): the content-type gate applies only after a successful
    route match.  When the matcher returns no route, the content type is
    not looked at, the route handler is not called and the dispatcher
    returns normally after one response: the 405 response when allowed
    methods are known; otherwise the default 404 response when no 404
    handler is registered; otherwise what the registered 404 handler
    returned, or, when that handler raised or returned something that is
    not a response, the fallback, which has status 404 in production and
    500 in debug mode.  Apart from what a 404 handler returns, the request
    with any other content type gets the same response. *)
Theorem unmatched_request_skips_gate
    (self : Dyn.Catzilla) (client : nat) (method path raw_body : string)
    (capsule : Capsule) (pp : gmap string string)
    (am : option (list string)) :
  Dyn.resolve self method path = (None, pp, am) ->
  value (Dyn._handle_request self client method path raw_body capsule)
  = Return tt
  /\ handler_calls
       (trace (Dyn._handle_request self client method path raw_body capsule))
     = 0%nat
  /\ match am, Dyn._not_found_handler self with
     | Some (m :: ms), _ =>
         trace (Dyn._handle_request self client method path raw_body capsule)
         = [Send client
              (method_not_allowed (Dyn.flags self) method path (m :: ms))]
         /\ status_code
              (method_not_allowed (Dyn.flags self) method path (m :: ms))
            = 405%Z
     | _, None =>
         trace (Dyn._handle_request self client method path raw_body capsule)
         = [Send client (default_not_found (Dyn.flags self) method path)]
         /\ status_code (default_not_found (Dyn.flags self) method path)
            = 404%Z
     | _, Some h =>
         trace (Dyn._handle_request self client method path raw_body capsule)
         = [CallNotFoundHandler
              (dispatched_request client method path raw_body capsule pp);
            Send client
              (match h (dispatched_request client method path raw_body
                          capsule pp)
               with
               | Return (HandedResponse r) => r
               | Return (HandedOther type_name) =>
                   not_found_fallback (Dyn.flags self)
                     (Dyn.no_send_attribute type_name)
               | Raise handler_error =>
                   not_found_fallback (Dyn.flags self) handler_error
               end)]
         /\ forall handler_error,
              status_code (not_found_fallback (Dyn.flags self) handler_error)
              = if Dyn.production self then 404%Z else 500%Z
     end
  /\ (match am with
      | Some (_ :: _) => True
      | _ => Dyn._not_found_handler self = None
      end ->
      forall capsule',
        Dyn._handle_request self client method path raw_body capsule'
        = Dyn._handle_request self client method path raw_body capsule).
Proof.
  intros Hm.
  assert (Hrun : forall c,
            Dyn._handle_request self client method path raw_body c
            = match am with
              | Some (m :: ms) =>
                  io_bind
                    (send (method_not_allowed (Dyn.flags self) method path
                             (m :: ms)) client)
                    (fun _ => io_ret (Return tt))
              | _ =>
                  io_bind
                    (Dyn.not_found_branch self
                       (dispatched_request client method path raw_body c pp)
                       client method path)
                    (fun _ => io_ret (Return tt))
              end)
    by (intros c; now apply dyn_handle_request_unmatched).
  assert (H405 : forall l,
            status_code (method_not_allowed (Dyn.flags self) method path l)
            = 405%Z).
  { intros l. unfold method_not_allowed. simpl.
    now destruct (Dyn.production self). }
  assert (H404 : status_code (default_not_found (Dyn.flags self) method path)
                 = 404%Z).
  { unfold default_not_found. simpl. now destruct (Dyn.production self). }
  assert (Hfb : forall he,
            status_code (not_found_fallback (Dyn.flags self) he)
            = if Dyn.production self then 404%Z else 500%Z).
  { intros he. unfold not_found_fallback. simpl.
    now destruct (Dyn.production self). }
  split; [| split; [| split]].
  - rewrite Hrun. unfold Dyn.not_found_branch.
    destruct am as [[| m ms] |]; try reflexivity;
      (destruct (Dyn._not_found_handler self) as [h |]; [| reflexivity]);
      now destruct (h _) as [[r | t] | he].
  - rewrite Hrun. unfold Dyn.not_found_branch.
    destruct am as [[| m ms] |]; try reflexivity;
      (destruct (Dyn._not_found_handler self) as [h |]; [| reflexivity]);
      now destruct (h _) as [[r | t] | he].
  - rewrite Hrun. unfold Dyn.not_found_branch.
    destruct am as [[| m ms] |];
      destruct (Dyn._not_found_handler self) as [h |];
      try (split; [reflexivity | auto]);
      (split; [| exact Hfb]); now destruct (h _) as [[r | t] | he].
  - intros Hplain capsule'. rewrite !Hrun.
    destruct am as [[| m ms] |]; try reflexivity;
      unfold Dyn.not_found_branch; now rewrite Hplain.
Qed.

Lemma unmatched_request_skips_gate_witness :
  trace (Dyn._handle_request (lift (base_app true)) 7 "PUT" "/v" ""
           (mkCapsule (Some "text/xml")))
  = [Send 7 (method_not_allowed (Dyn.flags (lift (base_app true))) "PUT" "/v"
               ["POST"; "GET"; "DELETE"])]
  /\ Dyn._handle_request (lift (base_app true)) 7 "PUT" "/v" ""
       (mkCapsule (Some "application/json"))
     = Dyn._handle_request (lift (base_app true)) 7 "PUT" "/v" ""
         (mkCapsule (Some "text/xml")).
Proof.
  destruct (unmatched_request_skips_gate (lift (base_app true)) 7 "PUT" "/v"
              "" (mkCapsule (Some "text/xml")) ∅
              (Some ["POST"; "GET"; "DELETE"]) eq_refl)
    as (_ & _ & [Htrace _] & Hsame).
  split; [exact Htrace |].
  apply Hsame. exact I.
Defined.
